(** * Saree Sanctuary API: a shallow embedding of [schemas.py] and [main.py]

    The development follows the two source files.

    - Part I embeds [schemas.py]: the five pydantic models as field tables
      and the validation pydantic runs on a request body.
    - Part II embeds the document store used by [main.py] through
      [create_document], [get_documents] and [db].
    - Part III embeds the request handlers of [main.py], the seeding and
      the diagnostics.
    - Part IV holds the properties of the store, the filters, the
      stitching and the validation of requests.
    - Part V holds further properties: of validated documents, of the read
      and create handlers together, of seeding and of the diagnostics.

    Python values are the JSON-like values a request body or a stored
    document holds.  Strings are [string]s of 8-bit characters, integers are
    [Z], dictionaries keyed by strings are [gmap string _].  Floating point
    numbers are left out of the value type. *)

From Stdlib Require Import ZArith String Ascii List Bool Lia.
From stdpp Require Import base option list gmap strings pretty.

Local Open Scope string_scope.
Local Open Scope Z_scope.
Local Open Scope list_scope.

Local Set Warnings "-register-all".

(** ** Python values *)

Inductive value : Type :=
| VNone
| VBool (b : bool)
| VInt (z : Z)
| VStr (s : string)
| VObjectId (oid : N)
| VList (l : list value)
| VDict (d : gmap string value).

(** A document (a [dict] with string keys). *)
Abbreviation document := (gmap string value).

(** Truth value of an [Optional[str]] as tested by [if q:]. *)
Definition truthy (p : option string) : bool :=
  match p with
  | None => false
  | Some s => negb (bool_decide (s = ""))
  end.

(** ** Strings *)

Definition lower_ascii (c : ascii) : ascii :=
  let n := nat_of_ascii c in
  if (Nat.leb 65 n && Nat.leb n 90)%bool then ascii_of_nat (n + 32) else c.

Fixpoint lower (s : string) : string :=
  match s with
  | EmptyString => EmptyString
  | String c s' => String (lower_ascii c) (lower s')
  end.

(** [is_prefix p s]: [s.startswith(p)]. *)
Fixpoint is_prefix (p s : string) : bool :=
  match p, s with
  | EmptyString, _ => true
  | String _ _, EmptyString => false
  | String a p', String b s' => bool_decide (a = b) && is_prefix p' s'
  end.

(** [contains q s]: [q in s]. *)
Fixpoint contains (q s : string) : bool :=
  is_prefix q s ||
  match s with
  | EmptyString => false
  | String _ s' => contains q s'
  end.

(** [icontains q s]: [q.lower() in s.lower()], the case-insensitive
    substring test. *)
Definition icontains (q s : string) : bool := contains (lower q) (lower s).

(** * Part I: schemas.py *)

(** ** What pydantic brings along

    The parsers of pydantic's core are not part of the repository; the
    models only name them through their annotations ([int], [HttpUrl]).
    They are taken as an interface. *)

Class Validators := {
  (** lax conversion of a string to an integer; [None] when it does not parse *)
  str_as_int : string -> option Z;
  (** parsing of an [HttpUrl]; [None] when the string is no http(s) URL *)
  parse_http_url : string -> option string
}.

(** ** Field annotations *)

Inductive ftype : Type :=
| TStr
| TInt (ge le : option Z)
| TBool
| THttpUrl
| TLiteral (choices : list string)
| TOptional (t : ftype)
| TList (t : ftype)
| TDict.

(** [Required] is [Field(...)] or a bare annotation; [Default v] is a
    default value, [default_factory=list] included (it gives [VList []]). *)
Inductive fdefault : Type :=
| Required
| Default (v : value).

Record field_info : Type := Field {
  f_name : string;
  f_annotation : ftype;
  f_default : fdefault
}.

Abbreviation model := (list field_info).

Definition Category : model :=
  [ Field "name" TStr Required;
    Field "slug" TStr Required ].

Definition Vendor : model :=
  [ Field "store_name" TStr Required;
    Field "slug" TStr Required;
    Field "logo_url" (TOptional THttpUrl) (Default VNone);
    Field "about" (TOptional TStr) (Default VNone);
    Field "verified" TBool (Default (VBool false));
    Field "membership_status" (TLiteral ["active"; "expired"]) (Default (VStr "active"));
    Field "membership_renewal_date" (TOptional TStr) (Default VNone);
    Field "region" (TOptional TStr) (Default VNone) ].

Definition Product : model :=
  [ Field "title" TStr Required;
    Field "slug" TStr Required;
    Field "description" (TOptional TStr) (Default VNone);
    Field "vendor_slug" TStr Required;
    Field "price_in_paise" (TInt (Some 0) None) Required;
    Field "saree_type" TStr Required;
    Field "color" (TOptional TStr) (Default VNone);
    Field "material" (TOptional TStr) (Default VNone);
    Field "occasion" (TOptional TStr) (Default VNone);
    Field "care" (TOptional TStr) (Default VNone);
    Field "images" (TList THttpUrl) (Default (VList []));
    Field "stock" (TInt (Some 0) None) (Default (VInt 10)) ].

Definition Review : model :=
  [ Field "product_slug" TStr Required;
    Field "rating" (TInt (Some 1) (Some 5)) Required;
    Field "comment" (TOptional TStr) (Default VNone);
    Field "author_name" (TOptional TStr) (Default VNone) ].

Definition Order : model :=
  [ Field "buyer_name" TStr Required;
    Field "buyer_email" TStr Required;
    Field "vendor_slug" TStr Required;
    Field "items" (TList TDict) Required;
    Field "total_in_paise" (TInt (Some 0) None) Required;
    Field "status"
      (TLiteral ["pending"; "paid"; "dispatched"; "delivered"; "refunded"])
      (Default (VStr "pending")) ].

(** The request bodies of [main.py] subclass the models without change. *)
Definition CreateProductBody : model := Product.
Definition CreateVendorBody : model := Vendor.
Definition CreateReviewBody : model := Review.
Definition CreateOrderBody : model := Order.

(** ** Validation errors *)

Inductive error_type : Type :=
| missing
| string_type
| int_type
| int_parsing
| greater_than_equal
| less_than_equal
| bool_type
| bool_parsing
| url_type
| url_parsing
| literal_error
| list_type
| dict_type.

Inductive loc_item : Type :=
| LField (name : string)
| LIndex (i : nat).

(** One entry of [ValidationError.errors()]: where and what. *)
Record error_detail : Type := ErrorDetail {
  loc : list loc_item;
  type : error_type
}.

Definition at_loc (l : loc_item) (e : error_detail) : error_detail :=
  ErrorDetail (l :: loc e) (type e).

(** ** Validation of one value against an annotation (lax mode) *)

Definition check_bounds (ge le : option Z) (z : Z) : list error_detail + value :=
  match ge with
  | Some lo => if z <? lo then inl [ErrorDetail [] greater_than_equal]
               else match le with
                    | Some hi => if hi <? z then inl [ErrorDetail [] less_than_equal]
                                 else inr (VInt z)
                    | None => inr (VInt z)
                    end
  | None => match le with
            | Some hi => if hi <? z then inl [ErrorDetail [] less_than_equal]
                         else inr (VInt z)
            | None => inr (VInt z)
            end
  end.

Definition bool_of_str (s : string) : option bool :=
  let t := lower s in
  if bool_decide (t ∈ ["0"; "off"; "f"; "false"; "n"; "no"]) then Some false
  else if bool_decide (t ∈ ["1"; "on"; "t"; "true"; "y"; "yes"]) then Some true
  else None.

(** The items of a list, each validated by [validate]; an error of the
    item at index [i] is located under that index. *)
Fixpoint validate_items (validate : value -> list error_detail + value)
    (i : nat) (l : list value) : list error_detail * list value :=
  match l with
  | [] => ([], [])
  | x :: rest =>
      let '(errs, vs) := validate_items validate (S i) rest in
      match validate x with
      | inl e => (map (at_loc (LIndex i)) e ++ errs, vs)
      | inr x' => (errs, x' :: vs)
      end
  end.

Section Validation.
Context `{Validators}.

Fixpoint validate_value (t : ftype) (v : value) : list error_detail + value :=
  match t with
  | TStr =>
      match v with
      | VStr s => inr (VStr s)
      | _ => inl [ErrorDetail [] string_type]
      end
  | TInt ge le =>
      match v with
      | VInt z => check_bounds ge le z
      | VBool b => check_bounds ge le (Z.b2z b)
      | VStr s =>
          match str_as_int s with
          | Some z => check_bounds ge le z
          | None => inl [ErrorDetail [] int_parsing]
          end
      | _ => inl [ErrorDetail [] int_type]
      end
  | TBool =>
      match v with
      | VBool b => inr (VBool b)
      | VInt 0 => inr (VBool false)
      | VInt 1 => inr (VBool true)
      | VStr s =>
          match bool_of_str s with
          | Some b => inr (VBool b)
          | None => inl [ErrorDetail [] bool_parsing]
          end
      | VInt _ => inl [ErrorDetail [] bool_parsing]
      | _ => inl [ErrorDetail [] bool_type]
      end
  | THttpUrl =>
      match v with
      | VStr s =>
          match parse_http_url s with
          | Some u => inr (VStr u)
          | None => inl [ErrorDetail [] url_parsing]
          end
      | _ => inl [ErrorDetail [] url_type]
      end
  | TLiteral choices =>
      match v with
      | VStr s => if bool_decide (s ∈ choices) then inr (VStr s)
                  else inl [ErrorDetail [] literal_error]
      | _ => inl [ErrorDetail [] literal_error]
      end
  | TOptional t' =>
      match v with
      | VNone => inr VNone
      | _ => validate_value t' v
      end
  | TList t' =>
      match v with
      | VList l =>
          match validate_items (validate_value t') 0%nat l with
          | ([], vs) => inr (VList vs)
          | (errs, _) => inl errs
          end
      | _ => inl [ErrorDetail [] list_type]
      end
  | TDict =>
      match v with
      | VDict d => inr (VDict d)
      | _ => inl [ErrorDetail [] dict_type]
      end
  end.

(** One field of a model: a key absent from the payload takes the default
    (which pydantic does not validate) or is reported missing. *)
Definition validate_field (payload : document) (f : field_info)
  : list error_detail + value :=
  match payload !! f_name f with
  | None =>
      match f_default f with
      | Required => inl [ErrorDetail [LField (f_name f)] missing]
      | Default v => inr v
      end
  | Some v =>
      match validate_value (f_annotation f) v with
      | inl errs => inl (map (at_loc (LField (f_name f))) errs)
      | inr v' => inr v'
      end
  end.

(** All fields are validated and every error is collected; keys of the
    payload that are no field of the model are ignored. *)
Fixpoint validate_fields (fields : model) (payload : document)
  : list error_detail * document :=
  match fields with
  | [] => ([], ∅)
  | f :: rest =>
      let '(errs, doc) := validate_fields rest payload in
      match validate_field payload f with
      | inl e => (e ++ errs, doc)
      | inr v => (errs, <[f_name f := v]> doc)
      end
  end.

(** [Model.model_validate(payload)]: the validated fields, defaults
    included, or the [ValidationError] with its list of errors. *)
Definition model_validate (m : model) (payload : document)
  : list error_detail + document :=
  match validate_fields m payload with
  | ([], doc) => inr doc
  | (errs, _) => inl errs
  end.

End Validation.

(** * Part II: the document store *)

(** ** The runtime around the handlers

    Two functions that [main.py] names but does not define: Python's
    builtin [str], applied to a stored [_id], and the regular-expression
    search behind the store's [$regex] operator, given the pattern, the
    [$options] string and the subject. *)

Class Runtime := {
  str : value -> string;
  regex_search : string -> string -> string -> bool
}.

(** ** Failures *)

Inductive exn : Type :=
| HTTPException (status_code : Z) (detail : string)
| RequestValidationError (errors : list error_detail)
| StoreUnavailable.

Inductive outcome (A : Type) : Type :=
| Return (a : A)
| Raise (e : exn).

Arguments Return {A} a.
Arguments Raise {A} e.

(** The [status_code] attribute of an exception, for those that have one. *)
Definition status_code_of (e : exn) : option Z :=
  match e with
  | HTTPException c _ => Some c
  | _ => None
  end.

(** ** Filters

    A filter is the dictionary [list_products] and the slug lookups hand to
    [get_documents].  Its values are a plain string (equality), a
    [{"$regex": .., "$options": ..}] dictionary, or, under the key ["$or"],
    a list of filters.  The dictionary is kept as the list of its items in
    insertion order; [setitem] is the assignment [d[k] = v]. *)

Inductive fexpr : Type :=
| FValue (s : string)
| FRegex (pattern options : string)
| FOr (alternatives : list (list (string * fexpr))).

Abbreviation filter_dict := (list (string * fexpr)).

Fixpoint setitem (k : string) (v : fexpr) (d : filter_dict) : filter_dict :=
  match d with
  | [] => [(k, v)]
  | (k', v') :: rest =>
      if bool_decide (k' = k) then (k, v) :: rest else (k', v') :: setitem k v rest
  end.

(** The process-wide store: its named collections, each in insertion
    order, and the next identifier to hand out.  The global [db] of
    [database.py] is an [option Database]: [None] when the store was never
    initialized. *)
Record Database : Type := {
  collections : gmap string (list document);
  next_oid : N
}.

Definition collection (D : Database) (name : string) : list document :=
  default [] (collections D !! name).

Section Store.
Context `{Runtime}.

(** Whether document [d] satisfies the entry [key: e] of a filter. *)
Fixpoint clause_matches (key : string) (e : fexpr) (d : document) : bool :=
  match e with
  | FValue s =>
      match d !! key with
      | Some (VStr t) => bool_decide (t = s)
      | _ => false
      end
  | FRegex pattern options =>
      match d !! key with
      | Some (VStr subject) => regex_search pattern options subject
      | _ => false
      end
  | FOr alternatives =>
      bool_decide (key = "$or") &&
      existsb (fun alt => forallb (fun kv => clause_matches kv.1 kv.2 d) alt)
              alternatives
  end.

(** All entries of a filter hold of the document; the empty filter holds
    of every document. *)
Definition filter_matches (f : filter_dict) (d : document) : bool :=
  forallb (fun kv => clause_matches kv.1 kv.2 d) f.

(** Modelled from the spec: [database.get_documents] is not among the
    sources.  Section 4.2: "returns up to [limit] documents satisfying
    [predicate] (absent predicate => match-all).  Ordering is insertion
    order [...].  On an uninitialized store, returns an empty sequence
    rather than failing". *)
Definition get_documents (db : option Database) (collection_name : string)
    (filter : option filter_dict) (limit : Z) : list document :=
  match db with
  | None => []
  | Some D =>
      take (Z.to_nat limit)
        (List.filter (filter_matches (default [] filter))
                     (collection D collection_name))
  end.

(** Modelled from the spec: [database.create_document] is not among the
    sources.  Section 4.2: "assigns a fresh unique identifier, persists
    the document verbatim (field names unchanged), returns the identifier
    as an opaque string.  Fails with StoreUnavailable if the backing store
    was never initialized".  The identifier is kept under [_id], the
    internal field the handlers look for. *)
Definition create_document (db : option Database) (collection_name : string)
    (data : document) : outcome string * option Database :=
  match db with
  | None => (Raise StoreUnavailable, None)
  | Some D =>
      let oid := VObjectId (next_oid D) in
      (Return (str oid),
       Some {| collections :=
                 <[collection_name :=
                     collection D collection_name ++ [<["_id" := oid]> data]]>
                   (collections D);
               next_oid := N.succ (next_oid D) |})
  end.

(** * Part III: main.py *)

(** The identifier rewrite every read handler applies to a fetched
    document:
<<
    if "_id" in d:
        d["id"] = str(d.pop("_id"))
>>
    The documents come fresh from the store on every call, so the
    in-place update is a function on the document. *)
Definition normalize_id (d : document) : document :=
  match d !! "_id" with
  | Some v => <["id" := VStr (str v)]> (delete "_id" d)
  | None => d
  end.

(** The filter of [list_products], lines 180-194. *)
Definition products_filter (q saree_type color material occasion : option string)
  : filter_dict :=
  let filter_dict := [] in
  let filter_dict :=
    match q with
    | Some s =>
        if truthy q then
          setitem "$or"
            (FOr [ [("title", FRegex s "i")];
                   [("description", FRegex s "i")] ])
            filter_dict
        else filter_dict
    | None => filter_dict
    end in
  let eq_entry (k : string) (p : option string) (fd : list (string * fexpr)) :=
    match p with
    | Some s => if truthy p then setitem k (FValue s) fd else fd
    | None => fd
    end in
  let filter_dict := eq_entry "saree_type" saree_type filter_dict in
  let filter_dict := eq_entry "color" color filter_dict in
  let filter_dict := eq_entry "material" material filter_dict in
  let filter_dict := eq_entry "occasion" occasion filter_dict in
  filter_dict.

(** [GET /api/products] *)
Definition list_products (db : option Database)
    (q saree_type color material occasion : option string) (limit : Z)
  : list document :=
  match db with
  | None => []
  | Some _ =>
      let docs :=
        get_documents db "product"
          (Some (products_filter q saree_type color material occasion)) limit in
      map normalize_id docs
  end.

(** [GET /api/products/{slug}] *)
Definition get_product (db : option Database) (slug : string) : outcome document :=
  match db with
  | None => Raise (HTTPException 503 "Database not available")
  | Some _ =>
      let docs := get_documents db "product" (Some [("slug", FValue slug)]) 1 in
      match docs with
      | [] => Raise (HTTPException 404 "Product not found")
      | d :: _ =>
          let d := normalize_id d in
          let reviews :=
            get_documents db "review" (Some [("product_slug", FValue slug)]) 50 in
          let reviews := map normalize_id reviews in
          Return (<["reviews" := VList (map VDict reviews)]> d)
      end
  end.

(** [POST /api/products] *)
Definition create_product (db : option Database) (body : document)
  : outcome document * option Database :=
  match db with
  | None => (Raise (HTTPException 503 "Database not available"), db)
  | Some _ =>
      match create_document db "product" body with
      | (Return pid, db') => (Return {[ "id" := VStr pid ]}, db')
      | (Raise e, db') => (Raise e, db')
      end
  end.

(** [GET /api/vendors] *)
Definition list_vendors (db : option Database) (limit : Z) : list document :=
  match db with
  | None => []
  | Some _ =>
      let docs := get_documents db "vendor" None limit in
      map normalize_id docs
  end.

(** [GET /api/vendors/{slug}] *)
Definition get_vendor (db : option Database) (slug : string) : outcome document :=
  match db with
  | None => Raise (HTTPException 503 "Database not available")
  | Some _ =>
      let docs := get_documents db "vendor" (Some [("slug", FValue slug)]) 1 in
      match docs with
      | [] => Raise (HTTPException 404 "Vendor not found")
      | d :: _ =>
          let d := normalize_id d in
          let products :=
            get_documents db "product" (Some [("vendor_slug", FValue slug)]) 50 in
          let products := map normalize_id products in
          Return (<["products" := VList (map VDict products)]> d)
      end
  end.

(** [POST /api/vendors] *)
Definition create_vendor (db : option Database) (body : document)
  : outcome document * option Database :=
  match db with
  | None => (Raise (HTTPException 503 "Database not available"), db)
  | Some _ =>
      match create_document db "vendor" body with
      | (Return vid, db') => (Return {[ "id" := VStr vid ]}, db')
      | (Raise e, db') => (Raise e, db')
      end
  end.

(** [GET /api/reviews/{product_slug}] *)
Definition list_reviews (db : option Database) (product_slug : string) (limit : Z)
  : list document :=
  match db with
  | None => []
  | Some _ =>
      let docs :=
        get_documents db "review" (Some [("product_slug", FValue product_slug)]) limit in
      map normalize_id docs
  end.

(** [POST /api/reviews] *)
Definition create_review (db : option Database) (body : document)
  : outcome document * option Database :=
  match db with
  | None => (Raise (HTTPException 503 "Database not available"), db)
  | Some _ =>
      match create_document db "review" body with
      | (Return rid, db') => (Return {[ "id" := VStr rid ]}, db')
      | (Raise e, db') => (Raise e, db')
      end
  end.

(** [POST /api/orders]; [body.status] is a field of the validated body. *)
Definition create_order (db : option Database) (body : document)
  : outcome document * option Database :=
  match db with
  | None => (Raise (HTTPException 503 "Database not available"), db)
  | Some _ =>
      match create_document db "order" body with
      | (Return oid, db') =>
          (Return (<["status" := default VNone (body !! "status")]>
                     {[ "id" := VStr oid ]}), db')
      | (Raise e, db') => (Raise e, db')
      end
  end.

(** The categories [list_categories] answers with when there is no store. *)
Definition fallback_categories : list document :=
  [ <["slug" := VStr "banarasi"]> {[ "name" := VStr "Banarasi" ]};
    <["slug" := VStr "kanjivaram"]> {[ "name" := VStr "Kanjivaram" ]};
    <["slug" := VStr "cotton"]> {[ "name" := VStr "Cotton" ]};
    <["slug" := VStr "silk"]> {[ "name" := VStr "Silk" ]};
    <["slug" := VStr "organza"]> {[ "name" := VStr "Organza" ]} ].

(** [GET /api/categories] *)
Definition list_categories (db : option Database) (limit : Z) : list document :=
  match db with
  | None => fallback_categories
  | Some _ =>
      let docs := get_documents db "category" None limit in
      map normalize_id docs
  end.

End Store.

(** ** Request bodies

    A [POST] handler declares its body as a model ([body: CreateProductBody]);
    the framework validates the payload against it and calls the handler only
    with a validated body.  A payload that does not validate is answered
    with the validation errors and the handler does not run. *)

Section Routes.
Context `{Validators} `{Runtime}.

Definition post (body_model : model)
    (handler : option Database -> document -> outcome document * option Database)
    (db : option Database) (payload : document)
  : outcome document * option Database :=
  match model_validate body_model payload with
  | inl errors => (Raise (RequestValidationError errors), db)
  | inr body => handler db body
  end.

Definition post_products := post CreateProductBody create_product.
Definition post_vendors := post CreateVendorBody create_vendor.
Definition post_reviews := post CreateReviewBody create_review.
Definition post_orders := post CreateOrderBody create_order.

End Routes.

(** * Instances to run the embedding on concrete requests *)

(** ** A regular-expression engine for a fragment of the pattern language

    Patterns of ordinary characters, the dot (any character but a newline)
    and backslash-escaped punctuation.  A pattern with any other
    metacharacter is outside the fragment: [fragment_compile] gives [None]
    and nothing is stated about such patterns. *)

Inductive ritem : Type :=
| RChar (c : ascii)
| RAny.

Definition is_meta (c : ascii) : bool :=
  bool_decide (c ∈ ["^"; "$"; "|"; "("; ")"; "["; "]"; "{"; "}"; "*"; "+"; "?"]%char).

Definition is_alnum (c : ascii) : bool :=
  let n := nat_of_ascii c in
  (Nat.leb 48 n && Nat.leb n 57) || (Nat.leb 65 n && Nat.leb n 90)
  || (Nat.leb 97 n && Nat.leb n 122).

Fixpoint fragment_compile (pattern : string) : option (list ritem) :=
  match pattern with
  | EmptyString => Some []
  | String c rest =>
      if bool_decide (c = "\"%char) then
        match rest with
        | EmptyString => None
        | String c' rest' =>
            if is_alnum c' then None
            else cons (RChar c') <$> fragment_compile rest'
        end
      else if bool_decide (c = "."%char) then cons RAny <$> fragment_compile rest
      else if is_meta c then None
      else cons (RChar c) <$> fragment_compile rest
  end.

Definition newline : ascii := ascii_of_nat 10.

Definition char_eq (ignore_case : bool) (a b : ascii) : bool :=
  if ignore_case then bool_decide (lower_ascii a = lower_ascii b)
  else bool_decide (a = b).

(** The items match a prefix of the subject. *)
Fixpoint match_here (ignore_case : bool) (r : list ritem) (subject : string) : bool :=
  match r, subject with
  | [], _ => true
  | _ :: _, EmptyString => false
  | RChar c :: r', String x s' => char_eq ignore_case c x && match_here ignore_case r' s'
  | RAny :: r', String x s' => negb (bool_decide (x = newline)) && match_here ignore_case r' s'
  end.

(** The items match somewhere in the subject. *)
Fixpoint match_anywhere (ignore_case : bool) (r : list ritem) (subject : string) : bool :=
  match_here ignore_case r subject ||
  match subject with
  | EmptyString => false
  | String _ s' => match_anywhere ignore_case r s'
  end.

Definition fragment_search (pattern options subject : string) : bool :=
  match fragment_compile pattern with
  | Some r => match_anywhere (contains "i" options) r subject
  | None => false
  end.

(** ** [str] on the values an identifier can be *)

Definition scalar_str (v : value) : string :=
  match v with
  | VNone => "None"
  | VBool true => "True"
  | VBool false => "False"
  | VInt z => pretty z
  | VStr s => s
  | VObjectId oid => pretty oid
  | VList _ => "[...]"
  | VDict _ => "{...}"
  end.

Definition sample_runtime : Runtime :=
  {| str := scalar_str; regex_search := fragment_search |}.

(** ** Parsers for the payloads used below *)

Definition digit_value (c : ascii) : option Z :=
  let n := nat_of_ascii c in
  if (Nat.leb 48 n && Nat.leb n 57)%bool then Some (Z.of_nat n - 48) else None.

Fixpoint digits_as_int (acc : Z) (s : string) : option Z :=
  match s with
  | EmptyString => Some acc
  | String c s' =>
      match digit_value c with
      | Some d => digits_as_int (10 * acc + d) s'
      | None => None
      end
  end.

Definition decimal_as_int (s : string) : option Z :=
  match s with
  | EmptyString => None
  | String c s' =>
      if bool_decide (c = "-"%char) then
        match s' with
        | EmptyString => None
        | _ => Z.opp <$> digits_as_int 0 s'
        end
      else digits_as_int 0 s
  end.

Definition scheme_url (s : string) : option string :=
  if is_prefix "http://" s || is_prefix "https://" s then Some s else None.

Definition sample_validators : Validators :=
  {| str_as_int := decimal_as_int; parse_http_url := scheme_url |}.

(** ** Sample documents: the seed data of [seed_data] *)

Definition doc_of (items : list (string * value)) : document := list_to_map items.

Definition royal_banarasi : document :=
  doc_of [ ("title", VStr "Royal Banarasi Brocade");
           ("slug", VStr "royal-banarasi-brocade");
           ("description", VStr "Rich zari work with traditional motifs.");
           ("vendor_slug", VStr "varanasi-weaves");
           ("price_in_paise", VInt 899900);
           ("saree_type", VStr "Banarasi");
           ("color", VStr "Maroon");
           ("material", VStr "Silk");
           ("occasion", VStr "Wedding");
           ("care", VStr "Dry clean only");
           ("images", VList [VStr "https://images.unsplash.com/photo-1603575448894-0474f35f9f1b?q=80&w=1200&auto=format&fit=crop"]);
           ("stock", VInt 8) ].

Definition summer_breeze : document :=
  doc_of [ ("title", VStr "Summer Breeze Cotton");
           ("slug", VStr "summer-breeze-cotton");
           ("description", VStr "Lightweight cotton saree.");
           ("vendor_slug", VStr "cotton-looms");
           ("price_in_paise", VInt 299900);
           ("saree_type", VStr "Cotton");
           ("color", VStr "Saffron");
           ("material", VStr "Cotton");
           ("occasion", VStr "Casual");
           ("care", VStr "Machine wash gentle");
           ("images", VList [VStr "https://images.unsplash.com/photo-1585487000160-6f1a5e60e1f9?q=80&w=1200&auto=format&fit=crop"]);
           ("stock", VInt 20) ].

Definition cotton_looms : document :=
  doc_of [ ("store_name", VStr "Cotton Looms");
           ("slug", VStr "cotton-looms");
           ("about", VStr "Breathable cotton sarees.");
           ("verified", VBool false);
           ("region", VStr "Coimbatore") ].

Definition review_asha : document :=
  doc_of [ ("product_slug", VStr "royal-banarasi-brocade");
           ("rating", VInt 5);
           ("comment", VStr "Stunning craftsmanship!");
           ("author_name", VStr "Asha") ].

Definition review_meera : document :=
  doc_of [ ("product_slug", VStr "classic-kanjivaram-gold");
           ("rating", VInt 4);
           ("comment", VStr "Luxurious and elegant.");
           ("author_name", VStr "Meera") ].

Definition empty_db : Database := {| collections := ∅; next_oid := 0 |}.

(** A store holding the sample documents, each under its identifier. *)
Definition sample_db : Database :=
  {| collections :=
       list_to_map
         [ ("product", [ <["_id" := VObjectId 0]> royal_banarasi;
                         <["_id" := VObjectId 1]> summer_breeze ]);
           ("vendor", [ <["_id" := VObjectId 2]> cotton_looms ]);
           ("review", [ <["_id" := VObjectId 3]> review_asha;
                        <["_id" := VObjectId 4]> review_meera ]) ];
     next_oid := 5 |}.

(** An order for the sample product, without a status. *)
Definition sample_order : document :=
  doc_of [ ("buyer_name", VStr "Asha");
           ("buyer_email", VStr "asha@example.com");
           ("vendor_slug", VStr "cotton-looms");
           ("items", VList [VDict (doc_of [ ("product_slug", VStr "summer-breeze-cotton");
                                            ("quantity", VInt 1);
                                            ("price_in_paise", VInt 299900) ])]);
           ("total_in_paise", VInt 299900) ].

(** * Part III, continued: the rest of main.py *)

(** ** The documents of [seed_data] *)

Definition category_doc (name slug : string) : document :=
  doc_of [ ("name", VStr name); ("slug", VStr slug) ].

Definition seed_categories : list document :=
  [ category_doc "Banarasi" "banarasi";
    category_doc "Kanjivaram" "kanjivaram";
    category_doc "Cotton" "cotton";
    category_doc "Silk" "silk";
    category_doc "Organza" "organza" ].

Definition varanasi_weaves : document :=
  doc_of [ ("store_name", VStr "Varanasi Weaves");
           ("slug", VStr "varanasi-weaves");
           ("about", VStr "Handwoven Banarasi sarees.");
           ("verified", VBool true);
           ("region", VStr "Varanasi") ].

Definition kanjivaram_katha : document :=
  doc_of [ ("store_name", VStr "Kanjivaram Katha");
           ("slug", VStr "kanjivaram-katha");
           ("about", VStr "Traditional Kanjivaram silk.");
           ("verified", VBool true);
           ("region", VStr "Kanchipuram") ].

Definition seed_vendors : list document :=
  [ varanasi_weaves; kanjivaram_katha; cotton_looms ].

Definition classic_kanjivaram : document :=
  doc_of [ ("title", VStr "Classic Kanjivaram Gold");
           ("slug", VStr "classic-kanjivaram-gold");
           ("description", VStr "Pure silk with gold border.");
           ("vendor_slug", VStr "kanjivaram-katha");
           ("price_in_paise", VInt 1299900);
           ("saree_type", VStr "Kanjivaram");
           ("color", VStr "Indigo");
           ("material", VStr "Silk");
           ("occasion", VStr "Festive");
           ("care", VStr "Dry clean only");
           ("images", VList [VStr "https://images.unsplash.com/photo-1610563166150-6ed79b3b6d62?q=80&w=1200&auto=format&fit=crop"]);
           ("stock", VInt 5) ].

Definition seed_products : list document :=
  [ royal_banarasi; classic_kanjivaram; summer_breeze ].

Definition seed_reviews : list document :=
  [ review_asha; review_meera ].

Section Seed.
Context `{Runtime}.

(** The loop of a seed block,
<<
    for c in categories:
        create_document("category", c)
        created["categories"] += 1
>>
    with the store after each call (the global is never reset) and the
    counter; an exception of [create_document] ends the loop. *)
Fixpoint create_each (D : Database) (collection_name : string)
    (docs : list document) (count : Z) : outcome Z * Database :=
  match docs with
  | [] => (Return count, D)
  | c :: rest =>
      match create_document (Some D) collection_name c with
      | (Return _, db') => create_each (default D db') collection_name rest (count + 1)
      | (Raise e, db') => (Raise e, default D db')
      end
  end.

(** One block of [seed_data]: the documents are created when the collection
    holds none ([if not existing:]). *)
Definition seed_block (D : Database) (collection_name : string)
    (docs : list document) : outcome Z * Database :=
  match collection D collection_name with
  | [] => create_each D collection_name docs 0
  | _ :: _ => (Return 0, D)
  end.

(** [POST /api/seed] *)
Definition seed_data (db : option Database) : outcome document * option Database :=
  match db with
  | None => (Raise (HTTPException 503 "Database not available"), db)
  | Some D =>
      match seed_block D "category" seed_categories with
      | (Raise e, D1) => (Raise e, Some D1)
      | (Return categories, D1) =>
          match seed_block D1 "vendor" seed_vendors with
          | (Raise e, D2) => (Raise e, Some D2)
          | (Return vendors, D2) =>
              match seed_block D2 "product" seed_products with
              | (Raise e, D3) => (Raise e, Some D3)
              | (Return products, D3) =>
                  match seed_block D3 "review" seed_reviews with
                  | (Raise e, D4) => (Raise e, Some D4)
                  | (Return reviews, D4) =>
                      (Return {[ "seeded" :=
                                   VDict (doc_of [ ("categories", VInt categories);
                                                   ("vendors", VInt vendors);
                                                   ("products", VInt products);
                                                   ("reviews", VInt reviews) ]) ]},
                       Some D4)
                  end
              end
          end
      end
  end.

End Seed.

(** ** The diagnostics *)

(** [GET /] *)
Definition root : document :=
  doc_of [ ("name", VStr "Saree Sanctuary API"); ("status", VStr "ok") ].

(** The two environment variables [test_database] reads with [os.getenv]. *)
Record environ : Type := {
  DATABASE_URL : option string;
  DATABASE_NAME : option string
}.

(** [GET /test].  [list_collection_names] is the store's call of that name;
    it may raise, and the handler then keeps the empty list.  The outer
    [try] guards only the test [db is not None] and the inner [try], neither
    of which raises, so its [except] branch is never taken. *)
Definition test_database (env : environ) (db : option Database)
    (list_collection_names : Database -> outcome (list string)) : document :=
  let response :=
    doc_of [ ("backend", VStr "✅ Running");
             ("database", VStr "❌ Not Available");
             ("database_url",
               VStr (if truthy (DATABASE_URL env) then "✅ Set" else "❌ Not Set"));
             ("database_name",
               VStr (if truthy (DATABASE_NAME env) then "✅ Set" else "❌ Not Set"));
             ("connection_status", VStr "Not Connected");
             ("collections", VList []) ] in
  match db with
  | Some D =>
      let response := <["database" := VStr "✅ Connected & Working"]> response in
      let response := <["connection_status" := VStr "Connected"]> response in
      match list_collection_names D with
      | Return names => <["collections" := VList (VStr <$> names)]> response
      | Raise _ => response
      end
  | None => <["database" := VStr "⚠️ Available but not initialized"]> response
  end.

(** ** The [limit] query parameter

    [limit: int = Query(default, ge=1, le=100)]: the framework takes the
    default when the parameter is absent, converts the raw string to an
    integer and checks the bounds; a value that does not pass is answered
    with the validation errors and the handler does not run. *)

Section Limits.
Context `{Validators} `{Runtime}.

Definition Query (default_value ge le : Z) (raw : option string)
  : list error_detail + Z :=
  match raw with
  | None => inr default_value
  | Some s =>
      match str_as_int s with
      | None => inl [ErrorDetail [LField "query"; LField "limit"] int_parsing]
      | Some z =>
          if z <? ge then
            inl [ErrorDetail [LField "query"; LField "limit"] greater_than_equal]
          else if le <? z then
            inl [ErrorDetail [LField "query"; LField "limit"] less_than_equal]
          else inr z
      end
  end.

Definition with_limit (default_value : Z) (raw : option string)
    (handler : Z -> list document) : outcome (list document) :=
  match Query default_value 1 100 raw with
  | inl errors => Raise (RequestValidationError errors)
  | inr limit => Return (handler limit)
  end.

Definition list_products_request (db : option Database)
    (q saree_type color material occasion limit : option string) :=
  with_limit 24 limit (list_products db q saree_type color material occasion).

Definition list_vendors_request (db : option Database) (limit : option string) :=
  with_limit 20 limit (list_vendors db).

Definition list_reviews_request (db : option Database) (product_slug : string)
    (limit : option string) :=
  with_limit 20 limit (list_reviews db product_slug).

Definition list_categories_request (db : option Database) (limit : option string) :=
  with_limit 20 limit (list_categories db).

End Limits.

(** * Vocabulary of the properties *)

(** The document has the string [s] under [field]. *)
Definition field_is (field s : string) (d : document) : bool :=
  match d !! field with
  | Some (VStr t) => bool_decide (t = s)
  | _ => false
  end.

(** The store's case-insensitive [$regex] search for [q], on the title or on
    the description of the document. *)
Definition text_matches `{Runtime} (q : string) (d : document) : bool :=
  match d !! "title" with
  | Some (VStr t) => regex_search q "i" t
  | _ => false
  end
  ||
  match d !! "description" with
  | Some (VStr t) => regex_search q "i" t
  | _ => false
  end.

(** The entry an exact-match parameter adds to the filter, and the entry the
    free-text parameter adds. *)
Definition equality_entry (k : string) (p : option string) : filter_dict :=
  match p with
  | Some s => if truthy p then [(k, FValue s)] else []
  | None => []
  end.

Definition text_entry (q : option string) : filter_dict :=
  match q with
  | Some s =>
      if truthy q then
        [("$or", FOr [ [("title", FRegex s "i")]; [("description", FRegex s "i")] ])]
      else []
  | None => []
  end.

(** The errors validation reports for one field of a model. *)
Definition field_errors `{Validators} (payload : document) (f : field_info)
  : list error_detail :=
  match validate_field payload f with
  | inl errs => errs
  | inr _ => []
  end.

(** The model has a field of that name. *)
Definition has_field (k : string) (m : model) : bool :=
  existsb (fun f => bool_decide (f_name f = k)) m.

(** The names of the fields a model declares without a default. *)
Definition required_fields (m : model) : list string :=
  f_name <$> List.filter (fun f => match f_default f with
                                   | Required => true
                                   | Default _ => false
                                   end) m.

(** A value acceptable for an [Optional[str]] field: the key is absent, or
    holds [None] or a string. *)
Definition optional_str (o : option value) : Prop :=
  o = None \/ o = Some VNone \/ exists s, o = Some (VStr s).

(** The fields of a review payload other than [rating] satisfy their
    constraints. *)
Definition review_rest_ok (payload : document) : Prop :=
  (exists s, payload !! "product_slug" = Some (VStr s))
  /\ optional_str (payload !! "comment")
  /\ optional_str (payload !! "author_name").

(** The free-text clause in the spec's words: [q] is a case-insensitive
    substring of the title or of the description. *)
Definition substring_text_matches (q : string) (d : document) : bool :=
  match d !! "title" with
  | Some (VStr t) => icontains q t
  | _ => false
  end
  ||
  match d !! "description" with
  | Some (VStr t) => icontains q t
  | _ => false
  end.

(** A pattern without metacharacters: no backslash, no dot, none of
    [^$|()[]{}*+?]. *)
Fixpoint literal_pattern (q : string) : bool :=
  match q with
  | EmptyString => true
  | String c rest =>
      negb (bool_decide (c = "\"%char)) && negb (bool_decide (c = "."%char))
      && negb (is_meta c) && literal_pattern rest
  end.

Fixpoint chars (q : string) : list ascii :=
  match q with
  | EmptyString => []
  | String c rest => c :: chars rest
  end.

(** ** Vocabulary of the further properties *)

(** The value is of the annotated type, bounds and choices included; a URL
    is a string the parser produces. *)
Fixpoint has_type `{Validators} (t : ftype) (v : value) : Prop :=
  match t with
  | TStr => exists s, v = VStr s
  | TInt ge le =>
      exists z, v = VInt z
                /\ (forall lo, ge = Some lo -> lo <= z)
                /\ (forall hi, le = Some hi -> z <= hi)
  | TBool => exists b, v = VBool b
  | THttpUrl => exists s u, parse_http_url s = Some u /\ v = VStr u
  | TLiteral choices => exists s, v = VStr s /\ s ∈ choices
  | TOptional t' => v = VNone \/ has_type t' v
  | TList t' => exists l, v = VList l /\ Forall (has_type t') l
  | TDict => exists d, v = VDict d
  end.

Definition field_names (m : model) : list string := f_name <$> m.

(** The first field of that name. *)
Definition lookup_field (k : string) (m : model) : option field_info :=
  List.find (fun f => bool_decide (f_name f = k)) m.

(** The five models of [schemas.py]. *)
Definition models : list model := [Category; Vendor; Product; Review; Order].

(** Parsing a parsed URL gives it back. *)
Definition url_parser_idempotent `{Validators} : Prop :=
  forall s u, parse_http_url s = Some u -> parse_http_url u = Some u.

(** The defaults of a model are of the annotated type and validate to
    themselves. *)
Definition defaults_sound `{Validators} (m : model) : Prop :=
  forall f v, f ∈ m -> f_default f = Default v ->
              has_type (f_annotation f) v
              /\ validate_value (f_annotation f) v = inr v.

(** The documents of a collection whose [field] is the string [s]. *)
Definition matching (field s : string) (docs : list document) : list document :=
  List.filter (field_is field s) docs.

(** The store after [create_document] has put [data] into a collection. *)
Definition store_with (D : Database) (collection_name : string) (data : document)
  : Database :=
  {| collections :=
       <[collection_name :=
           collection D collection_name
           ++ [<["_id" := VObjectId (next_oid D)]> data]]> (collections D);
     next_oid := N.succ (next_oid D) |}.

(** The store after [create_document] has put each of [docs], in order,
    into a collection. *)
Fixpoint store_with_all (D : Database) (collection_name : string)
    (docs : list document) : Database :=
  match docs with
  | [] => D
  | c :: rest => store_with_all (store_with D collection_name c) collection_name rest
  end.

(** The documents as stored from identifier [n] on. *)
Fixpoint stamped (n : N) (docs : list document) : list document :=
  match docs with
  | [] => []
  | c :: rest => <["_id" := VObjectId n]> c :: stamped (N.succ n) rest
  end.

(** The store after one block of [seed_data], and the count the block
    reports. *)
Definition seeded_block (D : Database) (collection_name : string)
    (docs : list document) : Database :=
  match collection D collection_name with
  | [] => store_with_all D collection_name docs
  | _ :: _ => D
  end.

Definition seed_count (D : Database) (collection_name : string)
    (docs : list document) : Z :=
  match collection D collection_name with
  | [] => Z.of_nat (length docs)
  | _ :: _ => 0
  end.

(** The store after [seed_data]. *)
Definition seeded (D : Database) : Database :=
  seeded_block
    (seeded_block
       (seeded_block (seeded_block D "category" seed_categories) "vendor" seed_vendors)
       "product" seed_products)
    "review" seed_reviews.

(** The collections [seed_data] fills, each with its documents. *)
Definition seed_collections : list (string * list document) :=
  [ ("category", seed_categories); ("vendor", seed_vendors);
    ("product", seed_products); ("review", seed_reviews) ].

(** Some document of [targets] has under [key] the string that [d] has
    under [field]. *)
Definition refers (field key : string) (targets : list document) (d : document)
  : bool :=
  existsb (fun t => match d !! field, t !! key with
                    | Some (VStr a), Some (VStr b) => bool_decide (a = b)
                    | _, _ => false
                    end) targets.

(** * Part IV: properties *)

(** Closed equations between values of the embedding are decided by
    evaluating both sides. *)
Ltac by_vm :=
  lazymatch goal with
  | |- @eq ?T ?a ?b => vm_cast_no_check (@eq_refl T b)
  end.


(** ** Identifier normalization *)

Section NormalizeId.
Context `{Runtime}.

Lemma normalize_id_absent (d : document) :
  d !! "_id" = None -> normalize_id d = d.
Proof. intros Hd. unfold normalize_id. by rewrite Hd. Qed.

Lemma normalize_id_internal (d : document) : normalize_id d !! "_id" = None.
Proof.
  unfold normalize_id. destruct (d !! "_id") eqn:Hd; [|done].
  rewrite lookup_insert_ne; [|done]. apply lookup_delete_eq.
Qed.

Lemma normalize_id_external (d : document) (v : value) :
  d !! "_id" = Some v -> normalize_id d !! "id" = Some (VStr (str v)).
Proof. intros Hd. unfold normalize_id. rewrite Hd. apply lookup_insert_eq. Qed.

Lemma normalize_id_other (d : document) (k : string) :
  k ≠ "_id" -> k ≠ "id" -> normalize_id d !! k = d !! k.
Proof.
  intros H1 H2. unfold normalize_id. destruct (d !! "_id"); [|done].
  rewrite lookup_insert_ne; [|done]. by rewrite lookup_delete_ne.
Qed.

Lemma normalize_id_idempotent (d : document) :
  normalize_id (normalize_id d) = normalize_id d.
Proof. apply normalize_id_absent, normalize_id_internal. Qed.

(** C7.  Normalizing a document that has no [_id] leaves it unchanged, so
    normalizing twice is normalizing once; the output of normalization
    never has an [_id]; and when the input has an [_id], the output's
    [id] is its string form. *)
Theorem normalize_id_spec (d : document) :
  (d !! "_id" = None -> normalize_id d = d)
  /\ normalize_id (normalize_id d) = normalize_id d
  /\ normalize_id d !! "_id" = None
  /\ (forall v, d !! "_id" = Some v ->
                normalize_id d !! "id" = Some (VStr (str v))).
Proof.
  split; [apply normalize_id_absent|].
  split; [apply normalize_id_idempotent|].
  split; [apply normalize_id_internal|].
  apply normalize_id_external.
Qed.

End NormalizeId.

(** ** The uninitialized store *)

Section Uninitialized.
Context `{Runtime}.

Lemma fallback_categories_length : length fallback_categories = 5%nat.
Proof. reflexivity. Qed.

(** C1, as the handlers have it.  With [db] at [None] the listings of
    products, vendors and reviews answer with the empty list, the listing
    of categories answers with its five built-in categories, and every
    create handler raises [HTTPException(503, "Database not available")]
    and leaves the store as it was. *)
Theorem uninitialized_store_handlers
    (q saree_type color material occasion : option string)
    (product_slug : string) (limit : Z) (body : document) :
  list_products None q saree_type color material occasion limit = []
  /\ list_vendors None limit = []
  /\ list_reviews None product_slug limit = []
  /\ list_categories None limit = fallback_categories
  /\ length (list_categories None limit) = 5%nat
  /\ create_product None body
     = (Raise (HTTPException 503 "Database not available"), None)
  /\ create_vendor None body
     = (Raise (HTTPException 503 "Database not available"), None)
  /\ create_review None body
     = (Raise (HTTPException 503 "Database not available"), None)
  /\ create_order None body
     = (Raise (HTTPException 503 "Database not available"), None).
Proof. repeat split. Qed.

End Uninitialized.

(** C1 fails as stated: without a store, the category listing is not
    empty. *)
Lemma list_categories_uninitialized_not_empty :
  @list_categories sample_runtime None 20 <> [].
Proof. discriminate. Qed.

(** ** Failures raised by the handlers *)

Section Failures.
Context `{Validators} `{Runtime}.

(** Matching an equality entry does not depend on the runtime. *)
Lemma clause_matches_value (field s : string) (d : document) :
  clause_matches field (FValue s) d
  = match d !! field with
    | Some (VStr t) => bool_decide (t = s)
    | _ => false
    end.
Proof. reflexivity. Qed.

Lemma filter_matches_single (field s : string) (d : document) :
  filter_matches [(field, FValue s)] d = clause_matches field (FValue s) d.
Proof. unfold filter_matches. simpl. apply andb_true_r. Qed.

Lemma get_product_raises (db : option Database) (slug : string) (e : exn) :
  get_product db slug = Raise e ->
  (db = None /\ e = HTTPException 503 "Database not available")
  \/ (exists D, db = Some D
               /\ get_documents db "product" (Some [("slug", FValue slug)]) 1 = []
               /\ e = HTTPException 404 "Product not found").
Proof.
  unfold get_product. destruct db as [D|]; [|intros [= <-]; by left].
  destruct (get_documents _ _ _ _) eqn:Hdocs; [|discriminate].
  intros [= <-]. right. by exists D.
Qed.

Lemma get_vendor_raises (db : option Database) (slug : string) (e : exn) :
  get_vendor db slug = Raise e ->
  (db = None /\ e = HTTPException 503 "Database not available")
  \/ (exists D, db = Some D
               /\ get_documents db "vendor" (Some [("slug", FValue slug)]) 1 = []
               /\ e = HTTPException 404 "Vendor not found").
Proof.
  unfold get_vendor. destruct db as [D|]; [|intros [= <-]; by left].
  destruct (get_documents _ _ _ _) eqn:Hdocs; [|discriminate].
  intros [= <-]. right. by exists D.
Qed.

Lemma post_invalid (m : model)
    (handler : option Database -> document -> outcome document * option Database)
    (db : option Database) (payload : document) (errors : list error_detail) :
  model_validate m payload = inl errors ->
  post m handler db payload = (Raise (RequestValidationError errors), db).
Proof. intros Hv. unfold post. by rewrite Hv. Qed.

(** C8, as the handlers have it.  The handlers raise [HTTPException]s
    that carry the status code themselves: 503 when [db] is [None], on the
    slug lookups and on every create handler, and 404 when a slug lookup
    finds no document.  A create handler raises nothing else; a body that
    does not validate is refused before the handler runs, with the
    validation errors and no status code of the handlers' own. *)
Theorem handlers_raise_http_exceptions :
  (forall db slug e,
      get_product db slug = Raise e ->
      (db = None /\ e = HTTPException 503 "Database not available")
      \/ (db <> None /\ e = HTTPException 404 "Product not found"))
  /\ (forall db slug e,
      get_vendor db slug = Raise e ->
      (db = None /\ e = HTTPException 503 "Database not available")
      \/ (db <> None /\ e = HTTPException 404 "Vendor not found"))
  /\ (forall D slug,
      get_documents (Some D) "product" (Some [("slug", FValue slug)]) 1 = [] ->
      get_product (Some D) slug = Raise (HTTPException 404 "Product not found"))
  /\ (forall D slug,
      get_documents (Some D) "vendor" (Some [("slug", FValue slug)]) 1 = [] ->
      get_vendor (Some D) slug = Raise (HTTPException 404 "Vendor not found"))
  /\ (forall slug,
      get_product None slug = Raise (HTTPException 503 "Database not available")
      /\ get_vendor None slug = Raise (HTTPException 503 "Database not available"))
  /\ (forall handler, handler ∈ [create_product; create_vendor; create_review; create_order] ->
      forall db body e db',
        handler db body = (Raise e, db') ->
        db = None /\ db' = None
        /\ e = HTTPException 503 "Database not available")
  /\ (forall m handler db payload errors,
      model_validate m payload = inl errors ->
      post m handler db payload = (Raise (RequestValidationError errors), db)
      /\ status_code_of (RequestValidationError errors) = None).
Proof.
  split.
  { intros db slug e He. apply get_product_raises in He as [[-> ->]|(D & -> & _ & ->)];
      [by left|by right]. }
  split.
  { intros db slug e He. apply get_vendor_raises in He as [[-> ->]|(D & -> & _ & ->)];
      [by left|by right]. }
  split. { intros D slug Hd. unfold get_product. by rewrite Hd. }
  split. { intros D slug Hd. unfold get_vendor. by rewrite Hd. }
  split. { done. }
  split.
  { intros handler Hh db body e db' Hr. set_unfold in Hh.
    destruct Hh as [->|[->|[->|[->|[]]]]];
      unfold create_product, create_vendor, create_review, create_order,
        create_document in Hr;
      destruct db as [D|]; simplify_eq; done. }
  intros m handler db payload errors Hv. split; [by apply post_invalid|done].
Qed.

End Failures.

(** C8 fails as stated: a slug lookup without a match surfaces an exception
    that carries a transport status code. *)
Lemma get_product_raises_status_code :
  ~ (forall db slug e,
        @get_product sample_runtime db slug = Raise e -> status_code_of e = None).
Proof.
  intros Hall.
  specialize (Hall (Some empty_db) "no-such-slug"
                   (HTTPException 404 "Product not found") eq_refl).
  discriminate.
Qed.

(** ** The filter of the product listing *)

Section Filters.
Context `{Runtime}.

Lemma field_is_true (k s : string) (d : document) :
  field_is k s d = true <-> d !! k = Some (VStr s).
Proof.
  unfold field_is. destruct (d !! k) as [[]|]; split; try done.
  - intros Hb. apply bool_decide_eq_true in Hb. by subst.
  - intros [= ->]. by apply bool_decide_eq_true.
Qed.

Lemma truthy_true (p : option string) :
  truthy p = true <-> exists s, p = Some s /\ s <> "".
Proof.
  destruct p as [s|]; simpl.
  - rewrite negb_true_iff, bool_decide_eq_false. split.
    + intros Hs. by exists s.
    + by intros (s' & [= <-] & Hs).
  - split; [done|]. by intros (s & ? & _).
Qed.

Lemma truthy_false (p : option string) :
  truthy p = false <-> p = None \/ p = Some "".
Proof.
  destruct p as [s|]; simpl.
  - rewrite negb_false_iff, bool_decide_eq_true. split.
    + intros ->. by right.
    + by intros [|[= ->]].
  - split; [by left|done].
Qed.

(** The filter holds its entries in the order the handler adds them: the
    keys are distinct, so no assignment overwrites another. *)
Lemma products_filter_entries (q saree_type color material occasion : option string) :
  products_filter q saree_type color material occasion
  = text_entry q ++ equality_entry "saree_type" saree_type
    ++ equality_entry "color" color ++ equality_entry "material" material
    ++ equality_entry "occasion" occasion.
Proof.
  destruct q as [[|? ?]|], saree_type as [[|? ?]|], color as [[|? ?]|],
    material as [[|? ?]|], occasion as [[|? ?]|]; reflexivity.
Qed.

Lemma filter_matches_app (f g : filter_dict) (d : document) :
  filter_matches (f ++ g) d = filter_matches f d && filter_matches g d.
Proof. unfold filter_matches. apply forallb_app. Qed.

Lemma equality_entry_matches (k : string) (p : option string) (d : document) :
  filter_matches (equality_entry k p) d = true
  <-> (forall s, p = Some s -> s <> "" -> d !! k = Some (VStr s)).
Proof.
  unfold equality_entry. destruct p as [s|]; [|by split].
  destruct (truthy (Some s)) eqn:Ht.
  - apply truthy_true in Ht as (s' & [= <-] & Hs).
    rewrite filter_matches_single, clause_matches_value.
    fold (field_is k s d). rewrite field_is_true. split.
    + by intros Hd s' [= <-] _.
    + intros Hd. by apply Hd.
  - apply truthy_false in Ht as [|[= ->]]; [done|].
    split; [|done]. by intros _ s [= <-] Hs.
Qed.

Lemma text_entry_matches (q : option string) (d : document) :
  filter_matches (text_entry q) d = true
  <-> (forall s, q = Some s -> s <> "" -> text_matches s d = true).
Proof.
  unfold text_entry. destruct q as [s|]; [|by split].
  destruct (truthy (Some s)) eqn:Ht.
  - apply truthy_true in Ht as (s' & [= <-] & Hs).
    assert (filter_matches
              [("$or", FOr [ [("title", FRegex s "i")]; [("description", FRegex s "i")] ])] d
            = text_matches s d) as ->.
    { unfold filter_matches, text_matches. simpl.
      destruct (d !! "title") as [[]|], (d !! "description") as [[]|];
        simpl; rewrite ?andb_true_r, ?orb_false_r; reflexivity. }
    split.
    + by intros Hd s' [= <-] _.
    + intros Hd. by apply Hd.
  - apply truthy_false in Ht as [|[= ->]]; [done|].
    split; [|done]. by intros _ s [= <-] Hs.
Qed.

Lemma products_filter_matches (q saree_type color material occasion : option string)
    (d : document) :
  filter_matches (products_filter q saree_type color material occasion) d = true
  <-> (forall s, q = Some s -> s <> "" -> text_matches s d = true)
      /\ (forall s, saree_type = Some s -> s <> "" -> d !! "saree_type" = Some (VStr s))
      /\ (forall s, color = Some s -> s <> "" -> d !! "color" = Some (VStr s))
      /\ (forall s, material = Some s -> s <> "" -> d !! "material" = Some (VStr s))
      /\ (forall s, occasion = Some s -> s <> "" -> d !! "occasion" = Some (VStr s)).
Proof.
  rewrite products_filter_entries, !filter_matches_app, !andb_true_iff.
  by rewrite text_entry_matches, !equality_entry_matches.
Qed.

Lemma list_products_initialized (D : Database)
    (q saree_type color material occasion : option string) (limit : Z) :
  list_products (Some D) q saree_type color material occasion limit
  = map normalize_id
      (take (Z.to_nat limit)
         (List.filter
            (filter_matches (products_filter q saree_type color material occasion))
            (collection D "product"))).
Proof. reflexivity. Qed.

(** C3, as the handler has it.  Without parameters the filter is empty and
    holds of every document.  In general a document satisfies the filter
    exactly when it satisfies every clause a parameter contributes, and a
    parameter contributes a clause when it is a non-empty string: the text
    clause for [q], and for each of [saree_type], [color], [material] and
    [occasion] the equality of the document's field with the parameter,
    character for character.  With [saree_type="Cotton"] alone, exactly the
    documents whose [saree_type] is ["Cotton"] satisfy it.  The listing
    returns the stored products that satisfy the filter, in insertion order,
    up to the limit. *)
Theorem products_filter_spec :
  products_filter None None None None None = []
  /\ (forall d, filter_matches (products_filter None None None None None) d = true)
  /\ (forall q saree_type color material occasion d,
      filter_matches (products_filter q saree_type color material occasion) d = true
      <-> (forall s, q = Some s -> s <> "" -> text_matches s d = true)
          /\ (forall s, saree_type = Some s -> s <> "" ->
                        d !! "saree_type" = Some (VStr s))
          /\ (forall s, color = Some s -> s <> "" -> d !! "color" = Some (VStr s))
          /\ (forall s, material = Some s -> s <> "" ->
                        d !! "material" = Some (VStr s))
          /\ (forall s, occasion = Some s -> s <> "" ->
                        d !! "occasion" = Some (VStr s)))
  /\ (forall d,
      filter_matches (products_filter None (Some "Cotton") None None None) d = true
      <-> d !! "saree_type" = Some (VStr "Cotton"))
  /\ (forall D q saree_type color material occasion limit,
      list_products (Some D) q saree_type color material occasion limit
      = map normalize_id
          (take (Z.to_nat limit)
             (List.filter
                (filter_matches (products_filter q saree_type color material occasion))
                (collection D "product")))).
Proof.
  split; [reflexivity|].
  split; [reflexivity|].
  split; [apply products_filter_matches|].
  split; [|apply list_products_initialized].
  intros d. rewrite products_filter_matches. split.
  - intros (_ & Hs & _). by apply Hs.
  - intros Hd. repeat split; try done. by intros s [= <-] _.
Qed.

(** C10.  A parameter given as the empty string adds nothing to the filter:
    the filter, and with it the listing, is the one of the request without
    that parameter.  A request whose parameters are all empty strings has
    the empty filter, which holds of every document. *)
Theorem empty_string_parameters_are_absent :
  (forall q saree_type color material occasion,
      products_filter (Some "") saree_type color material occasion
      = products_filter None saree_type color material occasion
      /\ products_filter q (Some "") color material occasion
         = products_filter q None color material occasion
      /\ products_filter q saree_type (Some "") material occasion
         = products_filter q saree_type None material occasion
      /\ products_filter q saree_type color (Some "") occasion
         = products_filter q saree_type color None occasion
      /\ products_filter q saree_type color material (Some "")
         = products_filter q saree_type color material None)
  /\ products_filter (Some "") (Some "") (Some "") (Some "") (Some "") = []
  /\ (forall d,
      filter_matches
        (products_filter (Some "") (Some "") (Some "") (Some "") (Some "")) d = true)
  /\ (forall db limit,
      list_products db (Some "") (Some "") (Some "") (Some "") (Some "") limit
      = list_products db None None None None None limit)
  /\ (forall D limit,
      list_products (Some D) (Some "") (Some "") (Some "") (Some "") (Some "") limit
      = map normalize_id (take (Z.to_nat limit) (collection D "product"))).
Proof.
  split.
  { intros. rewrite !products_filter_entries. repeat split. }
  split; [reflexivity|].
  split; [reflexivity|].
  split; [reflexivity|].
  intros D limit. rewrite list_products_initialized.
  change (products_filter _ _ _ _ _) with (@nil (string * fexpr)).
  f_equal. f_equal. induction (collection D "product") as [|d l IH]; [done|].
  simpl. by rewrite IH.
Qed.

End Filters.

(** C3 fails as stated for a parameter that is present with the empty
    string as its value: it contributes no equality clause, so a product
    whose [saree_type] is ["Cotton"] satisfies the filter of
    [saree_type=""]. *)
Lemma empty_saree_type_contributes_no_clause :
  ~ (forall (s : string) (d : document),
        @filter_matches sample_runtime (products_filter None (Some s) None None None) d
        = true
        <-> d !! "saree_type" = Some (VStr s)).
Proof.
  intros Hall. destruct (Hall "" summer_breeze) as [Hclause _].
  specialize (Hclause eq_refl).
  assert (summer_breeze !! "saree_type" = Some (VStr "Cotton")) as Hs by by_vm.
  congruence.
Qed.

(** ** Stitching: a product with its reviews, a vendor with its products *)

Section Stitching.
Context `{Runtime}.

Lemma filter_field_is (k s : string) (docs : list document) :
  List.filter (filter_matches [(k, FValue s)]) docs = List.filter (field_is k s) docs.
Proof.
  apply List.filter_ext. intros d.
  by rewrite filter_matches_single, clause_matches_value.
Qed.

(** A lookup by one string field: the matching documents of the collection,
    in insertion order, up to the limit. *)
Lemma get_documents_by_field (D : Database) (coll k s : string) (limit : Z) :
  get_documents (Some D) coll (Some [(k, FValue s)]) limit
  = take (Z.to_nat limit) (List.filter (field_is k s) (collection D coll)).
Proof. unfold get_documents. simpl. by rewrite filter_field_is. Qed.

Lemma first_of_filter (k s : string) (docs : list document) (d : document) :
  head (List.filter (field_is k s) docs) = Some d ->
  take 1 (List.filter (field_is k s) docs) = [d] /\ d !! k = Some (VStr s).
Proof.
  intros Hd. destruct (List.filter (field_is k s) docs) as [|d' l] eqn:Hf; [done|].
  injection Hd as ->. split; [done|].
  apply field_is_true.
  assert (In d (List.filter (field_is k s) docs)) as Hin by (rewrite Hf; by left).
  by apply List.filter_In in Hin as [_ ?].
Qed.

Lemma get_product_found (D : Database) (slug : string) (d : document) :
  head (List.filter (field_is "slug" slug) (collection D "product")) = Some d ->
  get_product (Some D) slug
  = Return (<["reviews" :=
               VList (map VDict
                        (map normalize_id
                           (take 50 (List.filter (field_is "product_slug" slug)
                                                 (collection D "review")))))]>
              (normalize_id d)).
Proof.
  intros Hd. apply first_of_filter in Hd as [Hd _].
  unfold get_product. rewrite !get_documents_by_field.
  change (Z.to_nat 1) with 1%nat. rewrite Hd.
  by change (Z.to_nat 50) with 50%nat.
Qed.

Lemma get_vendor_found (D : Database) (slug : string) (d : document) :
  head (List.filter (field_is "slug" slug) (collection D "vendor")) = Some d ->
  get_vendor (Some D) slug
  = Return (<["products" :=
               VList (map VDict
                        (map normalize_id
                           (take 50 (List.filter (field_is "vendor_slug" slug)
                                                 (collection D "product")))))]>
              (normalize_id d)).
Proof.
  intros Hd. apply first_of_filter in Hd as [Hd _].
  unfold get_vendor. rewrite !get_documents_by_field.
  change (Z.to_nat 1) with 1%nat. rewrite Hd.
  by change (Z.to_nat 50) with 50%nat.
Qed.

(** C4.  When [d] is the first stored product whose [slug] is the requested
    one, [get_product] returns [d], normalized, with the field [reviews]
    set to the list of the stored reviews whose [product_slug] is that slug,
    in insertion order, at most the first 50 of them, each normalized; the
    list is there, and empty, when no review matches.  [get_vendor] does the
    same with the field [products] and the stored products whose
    [vendor_slug] is the vendor's slug. *)
Theorem stitching_spec :
  (forall D slug d,
      head (List.filter (field_is "slug" slug) (collection D "product")) = Some d ->
      let reviews :=
        take 50 (List.filter (field_is "product_slug" slug) (collection D "review")) in
      d !! "slug" = Some (VStr slug)
      /\ get_product (Some D) slug
         = Return (<["reviews" := VList (map VDict (map normalize_id reviews))]>
                     (normalize_id d))
      /\ (length reviews <= 50)%nat
      /\ (List.filter (field_is "product_slug" slug) (collection D "review") = [] ->
          exists doc, get_product (Some D) slug = Return doc
                      /\ doc !! "reviews" = Some (VList [])))
  /\ (forall D slug d,
      head (List.filter (field_is "slug" slug) (collection D "vendor")) = Some d ->
      let products :=
        take 50 (List.filter (field_is "vendor_slug" slug) (collection D "product")) in
      d !! "slug" = Some (VStr slug)
      /\ get_vendor (Some D) slug
         = Return (<["products" := VList (map VDict (map normalize_id products))]>
                     (normalize_id d))
      /\ (length products <= 50)%nat
      /\ (List.filter (field_is "vendor_slug" slug) (collection D "product") = [] ->
          exists doc, get_vendor (Some D) slug = Return doc
                      /\ doc !! "products" = Some (VList []))).
Proof.
  split.
  - intros D slug d Hd reviews. subst reviews.
    split; [by apply first_of_filter in Hd as [_ ?]|].
    split; [by apply get_product_found|].
    split; [rewrite length_take; lia|].
    intros Hnone. eexists. split; [by apply get_product_found|].
    rewrite Hnone. apply lookup_insert_eq.
  - intros D slug d Hd products. subst products.
    split; [by apply first_of_filter in Hd as [_ ?]|].
    split; [by apply get_vendor_found|].
    split; [rewrite length_take; lia|].
    intros Hnone. eexists. split; [by apply get_vendor_found|].
    rewrite Hnone. apply lookup_insert_eq.
Qed.

End Stitching.

(** [stitching_spec] on the sample store: the product has one review, the
    vendor one product. *)
Lemma stitching_spec_sample :
  @get_product sample_runtime (Some sample_db) "royal-banarasi-brocade"
  = Return (<["reviews" :=
               VList [VDict (<["id" := VStr "3"]> review_asha)]]>
              (<["id" := VStr "0"]> royal_banarasi))
  /\ @get_vendor sample_runtime (Some sample_db) "cotton-looms"
     = Return (<["products" :=
                  VList [VDict (<["id" := VStr "1"]> summer_breeze)]]>
                 (<["id" := VStr "2"]> cotton_looms)).
Proof.
  pose proof (@stitching_spec sample_runtime) as [Hp Hv].
  split.
  - destruct (Hp sample_db "royal-banarasi-brocade"
                 (<["_id" := VObjectId 0]> royal_banarasi)) as (_ & -> & _).
    + by_vm.
    + by_vm.
  - destruct (Hv sample_db "cotton-looms"
                 (<["_id" := VObjectId 2]> cotton_looms)) as (_ & -> & _).
    + by_vm.
    + by_vm.
Defined.

(** ** Validation *)

Section ValidationProperties.
Context `{Validators} `{Runtime}.

Lemma validate_fields_errors (m : model) (payload : document) :
  (validate_fields m payload).1 = flat_map (field_errors payload) m.
Proof.
  induction m as [|f rest IH]; [done|].
  simpl. destruct (validate_fields rest payload) as [errs doc]. simpl in IH.
  unfold field_errors at 1.
  destruct (validate_field payload f); simpl; by rewrite IH.
Qed.

Lemma model_validate_inl (m : model) (payload : document) (errors : list error_detail) :
  model_validate m payload = inl errors
  <-> errors = flat_map (field_errors payload) m /\ errors <> [].
Proof.
  unfold model_validate. rewrite <- validate_fields_errors.
  destruct (validate_fields m payload) as [[|e errs] doc]; simpl; split.
  - done.
  - by intros [-> ?].
  - by intros [= <-].
  - by intros [-> _].
Qed.

Lemma model_validate_inr (m : model) (payload doc : document) :
  model_validate m payload = inr doc <-> validate_fields m payload = ([], doc).
Proof.
  unfold model_validate.
  destruct (validate_fields m payload) as [[|e errs] d]; split; try done.
  - by intros [= ->].
  - by intros [= ->].
Qed.

Lemma check_bounds_not_missing (ge le : option Z) (z : Z) (errs : list error_detail) :
  check_bounds ge le z = inl errs -> Forall (fun e => type e <> missing) errs.
Proof.
  unfold check_bounds. intros Hc.
  repeat case_match; simplify_eq; by repeat constructor.
Qed.

Lemma validate_items_not_missing (validate : value -> list error_detail + value)
    (i : nat) (l : list value) :
  (forall v errs, validate v = inl errs -> Forall (fun e => type e <> missing) errs) ->
  Forall (fun e => type e <> missing) (validate_items validate i l).1.
Proof.
  intros Hval. revert i. induction l as [|x l IHl]; intros i; [by constructor|].
  simpl. specialize (IHl (S i)).
  destruct (validate_items validate (S i) l) as [errs vs]. simpl in IHl.
  destruct (validate x) as [e|x'] eqn:Hx; simpl; [|done].
  apply Forall_app. split; [|done].
  apply Hval in Hx. apply Forall_forall. intros e' He'.
  apply list_elem_of_fmap in He' as (e0 & -> & He0).
  rewrite Forall_forall in Hx. simpl. by apply Hx.
Qed.

Lemma validate_value_not_missing (t : ftype) (v : value) (errs : list error_detail) :
  validate_value t v = inl errs -> Forall (fun e => type e <> missing) errs.
Proof.
  revert v errs. induction t as [| | | | |t IH|t IH|]; intros v errs Hv; simpl in Hv.
  - destruct v; simplify_eq; by repeat constructor.
  - destruct v; try (simplify_eq; by repeat constructor);
      try by eapply check_bounds_not_missing.
    destruct (str_as_int s); [by eapply check_bounds_not_missing|].
    simplify_eq. by repeat constructor.
  - repeat case_match; simplify_eq; by repeat constructor.
  - repeat case_match; simplify_eq; by repeat constructor.
  - repeat case_match; simplify_eq; by repeat constructor.
  - destruct v; first [done | by apply (IH _ _ Hv)].
  - destruct v; try (simplify_eq; by repeat constructor).
    pose proof (validate_items_not_missing (validate_value t) 0 l IH) as Hall.
    destruct (validate_items (validate_value t) 0 l) as [[|e0 errs0] vs];
      by simplify_eq.
  - destruct v; simplify_eq; by repeat constructor.
Qed.

Lemma field_errors_missing (payload : document) (f : field_info) (e : error_detail) :
  e ∈ field_errors payload f -> type e = missing ->
  f_default f = Required /\ payload !! f_name f = None /\ loc e = [LField (f_name f)].
Proof.
  unfold field_errors, validate_field.
  destruct (payload !! f_name f) as [v|] eqn:Hp.
  - destruct (validate_value (f_annotation f) v) as [errs|v'] eqn:Hv.
    + intros He Ht. apply validate_value_not_missing in Hv.
      apply list_elem_of_fmap in He as (e0 & -> & He0).
      rewrite Forall_forall in Hv. by destruct (Hv e0 He0).
    + by intros ?%not_elem_of_nil.
  - destruct (f_default f).
    + intros ->%list_elem_of_singleton. done.
    + by intros ?%not_elem_of_nil.
Qed.

Lemma field_errors_required_absent (payload : document) (f : field_info) :
  f_default f = Required -> payload !! f_name f = None ->
  field_errors payload f = [ErrorDetail [LField (f_name f)] missing].
Proof. intros Hd Hp. unfold field_errors, validate_field. by rewrite Hp, Hd. Qed.

Lemma elem_of_flat_map {A B} (g : A -> list B) (l : list A) (y : B) :
  y ∈ flat_map g l <-> exists x, x ∈ l /\ y ∈ g x.
Proof.
  rewrite list_elem_of_In, in_flat_map. split.
  - intros (x & Hx & Hy). exists x. by rewrite !list_elem_of_In.
  - intros (x & Hx & Hy). exists x. by rewrite <- !list_elem_of_In.
Qed.

Lemma flat_map_nil {A B} (g : A -> list B) (l : list A) :
  (forall x, x ∈ l -> g x = []) -> flat_map g l = [].
Proof.
  induction l as [|x l IH]; [done|]. intros Hl. simpl.
  rewrite (Hl x) by by left. apply IH. intros y Hy. apply Hl. by right.
Qed.

Lemma flat_map_only {A B} (g : A -> list B) (l : list A) (x : A) :
  NoDup l -> x ∈ l -> (forall y, y ∈ l -> y <> x -> g y = []) -> flat_map g l = g x.
Proof.
  induction l as [|a l IH]; intros Hnd Hx Hothers.
  - by apply not_elem_of_nil in Hx.
  - apply NoDup_cons in Hnd as [Ha Hnd]. simpl.
    apply elem_of_cons in Hx as [->|Hx].
    + rewrite flat_map_nil; [apply app_nil_r|].
      intros y Hy. apply Hothers; [by right|]. by intros ->.
    + rewrite (Hothers a); [|by left|by intros ->]. simpl.
      apply IH; [done..|]. intros y Hy. apply Hothers. by right.
Qed.

Lemma required_fields_of_models :
  required_fields Category = ["name"; "slug"]
  /\ required_fields Vendor = ["store_name"; "slug"]
  /\ required_fields Product
     = ["title"; "slug"; "vendor_slug"; "price_in_paise"; "saree_type"]
  /\ required_fields Review = ["product_slug"; "rating"]
  /\ required_fields Order
     = ["buyer_name"; "buyer_email"; "vendor_slug"; "items"; "total_in_paise"].
Proof. repeat split. Qed.

(** C6, as the models have it.  The required fields of a model are those
    declared without a default; for [Product] these are [title], [slug],
    [vendor_slug], [price_in_paise] and [saree_type], and neither [images]
    nor [stock].  A payload that lacks a required field does not validate:
    the errors hold a [missing] error located at that field, every [missing]
    error is located at a required field the payload lacks, the errors are
    that one error when no other field is at fault, and the request is
    refused with the store unchanged. *)
Theorem missing_required_field :
  (required_fields Category = ["name"; "slug"]
   /\ required_fields Vendor = ["store_name"; "slug"]
   /\ required_fields Product
      = ["title"; "slug"; "vendor_slug"; "price_in_paise"; "saree_type"]
   /\ required_fields Review = ["product_slug"; "rating"]
   /\ required_fields Order
      = ["buyer_name"; "buyer_email"; "vendor_slug"; "items"; "total_in_paise"])
  /\ (forall (m : model) (payload : document) (f : field_info),
      f ∈ m -> f_default f = Required -> payload !! f_name f = None ->
      exists errors,
        model_validate m payload = inl errors
        /\ ErrorDetail [LField (f_name f)] missing ∈ errors
        /\ (forall e, e ∈ errors -> type e = missing ->
                      exists g, g ∈ m /\ f_default g = Required
                                /\ payload !! f_name g = None
                                /\ loc e = [LField (f_name g)])
        /\ (NoDup m ->
            (forall g, g ∈ m -> g <> f -> field_errors payload g = []) ->
            errors = [ErrorDetail [LField (f_name f)] missing])
        /\ (forall handler db,
              post m handler db payload
              = (Raise (RequestValidationError errors), db))).
Proof.
  split; [apply required_fields_of_models|].
  intros m payload f Hf Hreq Habs.
  pose proof (field_errors_required_absent payload f Hreq Habs) as Hfe.
  assert (ErrorDetail [LField (f_name f)] missing
            ∈ flat_map (field_errors payload) m) as Hin.
  { apply elem_of_flat_map. exists f. split; [done|]. rewrite Hfe. by left. }
  assert (model_validate m payload = inl (flat_map (field_errors payload) m)) as Hv.
  { apply model_validate_inl. split; [done|].
    intros Hnil. rewrite Hnil in Hin. by apply not_elem_of_nil in Hin. }
  exists (flat_map (field_errors payload) m).
  split; [done|]. split; [done|]. split; [|split].
  - intros e He Ht. apply elem_of_flat_map in He as (g & Hg & He).
    exists g. split; [done|]. by apply field_errors_missing.
  - intros Hnd Hothers. rewrite <- Hfe. by apply flat_map_only.
  - intros handler db. by apply post_invalid.
Qed.

End ValidationProperties.

(** ** Reviews: the bounds of [rating] *)

Section ReviewRating.
Context `{Validators}.

Lemma validate_fields_cons_ok (f : field_info) (rest : model) (payload : document)
    (v : value) (doc : document) :
  validate_field payload f = inr v ->
  validate_fields rest payload = ([], doc) ->
  validate_fields (f :: rest) payload = ([], <[f_name f := v]> doc).
Proof. intros Hf Hrest. simpl. by rewrite Hrest, Hf. Qed.

Lemma validate_field_optional_str (payload : document) (k : string) :
  optional_str (payload !! k) ->
  exists v, validate_field payload (Field k (TOptional TStr) (Default VNone)) = inr v.
Proof.
  unfold validate_field. simpl.
  intros [->|[->|[s ->]]]; simpl; eauto.
Qed.

Lemma validate_field_rating (payload : document) (r : Z) :
  payload !! "rating" = Some (VInt r) ->
  validate_field payload (Field "rating" (TInt (Some 1) (Some 5)) Required)
  = if r <? 1 then inl [ErrorDetail [LField "rating"] greater_than_equal]
    else if 5 <? r then inl [ErrorDetail [LField "rating"] less_than_equal]
    else inr (VInt r).
Proof.
  intros Hr. unfold validate_field. simpl. rewrite Hr. simpl.
  unfold check_bounds. by destruct (r <? 1), (5 <? r).
Qed.

(** A rating outside 1..5 never validates, whatever the other fields. *)
Lemma review_rating_out_of_bounds (payload : document) (r : Z) :
  payload !! "rating" = Some (VInt r) -> r < 1 \/ 5 < r ->
  exists errors e,
    model_validate Review payload = inl errors
    /\ e ∈ errors /\ loc e = [LField "rating"]
    /\ (type e = greater_than_equal \/ type e = less_than_equal).
Proof.
  intros Hr Hout.
  assert (exists e, field_errors payload (Field "rating" (TInt (Some 1) (Some 5)) Required)
                    = [e] /\ loc e = [LField "rating"]
                    /\ (type e = greater_than_equal \/ type e = less_than_equal))
    as (e & He & Hloc & Hty).
  { unfold field_errors. rewrite (validate_field_rating _ r Hr).
    destruct (Z.ltb_spec r 1); [eexists; split; [done|]; split; [done|by left]|].
    destruct (Z.ltb_spec 5 r); [eexists; split; [done|]; split; [done|by right]|].
    lia. }
  assert (e ∈ flat_map (field_errors payload) Review) as Hin.
  { apply elem_of_flat_map. eexists. split; [|rewrite He; by left].
    unfold Review. rewrite !elem_of_cons. by right; left. }
  exists (flat_map (field_errors payload) Review), e.
  split; [|done].
  apply model_validate_inl. split; [done|].
  intros Hnil. rewrite Hnil in Hin. by apply not_elem_of_nil in Hin.
Qed.

(** A rating within 1..5 validates when the other fields do. *)
Lemma review_rating_in_bounds (payload : document) (r : Z) :
  review_rest_ok payload ->
  payload !! "rating" = Some (VInt r) -> 1 <= r <= 5 ->
  exists doc,
    model_validate Review payload = inr doc
    /\ doc !! "rating" = Some (VInt r)
    /\ doc !! "product_slug" = payload !! "product_slug".
Proof.
  intros ((s & Hs) & Hc & Ha) Hr Hbounds.
  apply validate_field_optional_str in Hc as (c & Hc).
  apply validate_field_optional_str in Ha as (a & Ha).
  assert (validate_field payload (Field "rating" (TInt (Some 1) (Some 5)) Required)
          = inr (VInt r)) as Hrating.
  { rewrite (validate_field_rating _ r Hr).
    destruct (Z.ltb_spec r 1); [lia|]. destruct (Z.ltb_spec 5 r); [lia|]. done. }
  assert (validate_field payload (Field "product_slug" TStr Required) = inr (VStr s))
    as Hslug.
  { unfold validate_field. simpl. by rewrite Hs. }
  eexists. split; [|split].
  - apply model_validate_inr. unfold Review.
    apply validate_fields_cons_ok; [exact Hslug|].
    apply validate_fields_cons_ok; [exact Hrating|].
    apply validate_fields_cons_ok; [exact Hc|].
    apply validate_fields_cons_ok; [exact Ha|]. reflexivity.
  - simpl. rewrite lookup_insert_ne; [|done]. apply lookup_insert_eq.
  - simpl. rewrite lookup_insert_eq. by rewrite Hs.
Qed.

(** C5.  A review payload whose [rating] is 0 or 6 never validates; the
    errors include one located at [rating].  A payload whose [rating] is 1
    or 5 validates whenever its other fields satisfy their constraints, and
    the validated document holds that rating. *)
Theorem review_rating_bounds (payload : document) :
  (payload !! "rating" = Some (VInt 0) \/ payload !! "rating" = Some (VInt 6) ->
   exists errors e,
     model_validate Review payload = inl errors
     /\ e ∈ errors /\ loc e = [LField "rating"])
  /\ (review_rest_ok payload ->
      payload !! "rating" = Some (VInt 1) \/ payload !! "rating" = Some (VInt 5) ->
      exists doc,
        model_validate Review payload = inr doc
        /\ doc !! "rating" = payload !! "rating").
Proof.
  split.
  - intros [Hr|Hr].
    + destruct (review_rating_out_of_bounds payload 0 Hr) as (errs & e & ? & ? & ? & _);
        [lia|]. by exists errs, e.
    + destruct (review_rating_out_of_bounds payload 6 Hr) as (errs & e & ? & ? & ? & _);
        [lia|]. by exists errs, e.
  - intros Hok [Hr|Hr].
    + destruct (review_rating_in_bounds payload 1 Hok Hr) as (doc & ? & ? & _); [lia|].
      exists doc. by rewrite Hr.
    + destruct (review_rating_in_bounds payload 5 Hok Hr) as (doc & ? & ? & _); [lia|].
      exists doc. by rewrite Hr.
Qed.

End ReviewRating.

(** ** Products: the defaults of [stock] and [images] *)

Section ProductDefaults.
Context `{Validators}.

Lemma validate_field_delete_other (payload : document) (k : string) (f : field_info) :
  f_name f <> k -> validate_field (delete k payload) f = validate_field payload f.
Proof. intros Hne. unfold validate_field. by rewrite lookup_delete_ne. Qed.

Lemma validate_field_delete_default (payload : document) (f : field_info) (v : value) :
  f_default f = Default v -> validate_field (delete (f_name f) payload) f = inr v.
Proof. intros Hd. unfold validate_field. by rewrite lookup_delete_eq, Hd. Qed.

(** Dropping from a valid payload a key whose field has a default leaves it
    valid, with the default in the validated document. *)
Lemma validate_fields_delete (m : model) (payload : document) (k : string) (v : value)
    (doc : document) :
  (forall f, f ∈ m -> f_name f = k -> f_default f = Default v) ->
  validate_fields m payload = ([], doc) ->
  validate_fields m (delete k payload)
  = ([], if has_field k m then <[k := v]> doc else doc).
Proof.
  revert doc. induction m as [|f rest IH]; intros doc Hdef Hv; [done|].
  simpl in Hv. destruct (validate_fields rest payload) as [errs0 doc0] eqn:Hrest.
  assert (forall g, g ∈ rest -> f_name g = k -> f_default g = Default v) as Hdef'.
  { intros g Hg. apply Hdef. by right. }
  assert (errs0 = []) as ->.
  { destruct (validate_field payload f); simplify_eq; [|done].
    by match goal with Happ : _ ++ _ = [] |- _ => apply app_eq_nil in Happ as [_ ?] end. }
  specialize (IH doc0 Hdef' eq_refl).
  simpl. rewrite IH. unfold has_field in *. simpl.
  destruct (decide (f_name f = k)) as [Hk|Hk].
  - rewrite (bool_decide_eq_true_2 _ Hk). simpl.
    rewrite <- Hk at 1. rewrite (validate_field_delete_default _ _ v);
      [|apply Hdef; [by left|done]].
    f_equal.
    destruct (validate_field payload f) as [e|v0]; simplify_eq.
    + by destruct (existsb _ rest); rewrite ?insert_insert_eq.
    + by destruct (existsb _ rest); rewrite ?insert_insert_eq.
  - rewrite (bool_decide_eq_false_2 _ Hk). simpl.
    rewrite validate_field_delete_other by done.
    destruct (validate_field payload f) as [e|v0]; simplify_eq.
    + match goal with Happ : _ ++ _ = [] |- _ => apply app_eq_nil in Happ as [-> _] end.
      done.
    + f_equal. destruct (existsb _ rest); [|done]. by apply insert_insert_ne.
Qed.

(** C9.  A product payload stays valid when [stock] or [images] (or both)
    are dropped from it, and the validated document then holds the default:
    10 for [stock], the empty list for [images]. *)
Theorem product_defaults (payload doc : document) :
  model_validate Product payload = inr doc ->
  model_validate Product (delete "stock" payload) = inr (<["stock" := VInt 10]> doc)
  /\ model_validate Product (delete "images" payload)
     = inr (<["images" := VList []]> doc)
  /\ model_validate Product (delete "images" (delete "stock" payload))
     = inr (<["images" := VList []]> (<["stock" := VInt 10]> doc))
  /\ (payload !! "stock" = None -> doc !! "stock" = Some (VInt 10))
  /\ (payload !! "images" = None -> doc !! "images" = Some (VList [])).
Proof.
  intros Hv. apply model_validate_inr in Hv.
  assert (forall f, f ∈ Product -> f_name f = "stock" -> f_default f = Default (VInt 10))
    as Hstock.
  { intros f Hf Hn. unfold Product in Hf. set_unfold in Hf.
    repeat destruct Hf as [->|Hf]; try done. }
  assert (forall f, f ∈ Product -> f_name f = "images" -> f_default f = Default (VList []))
    as Himages.
  { intros f Hf Hn. unfold Product in Hf. set_unfold in Hf.
    repeat destruct Hf as [->|Hf]; try done. }
  pose proof (validate_fields_delete Product payload "stock" _ doc Hstock Hv) as Hs.
  pose proof (validate_fields_delete Product payload "images" _ doc Himages Hv) as Hi.
  pose proof (validate_fields_delete Product (delete "stock" payload) "images" _ _
                Himages Hs) as Hsi.
  change (has_field "stock" Product) with true in *.
  change (has_field "images" Product) with true in *.
  split; [by apply model_validate_inr|].
  split; [by apply model_validate_inr|].
  split; [by apply model_validate_inr|].
  split.
  - intros Habs. rewrite (delete_id _ _ Habs) in Hs. rewrite Hv in Hs.
    injection Hs as Hs. rewrite Hs. apply lookup_insert_eq.
  - intros Habs. rewrite (delete_id _ _ Habs) in Hi. rewrite Hv in Hi.
    injection Hi as Hi. rewrite Hi. apply lookup_insert_eq.
Qed.

End ProductDefaults.

(** ** The theorems on concrete requests *)

(** [review_rating_bounds] on the sample review, with its rating set to 0
    and left at 5. *)
Lemma review_rating_bounds_sample :
  (exists errors e,
      @model_validate sample_validators Review (<["rating" := VInt 0]> review_asha)
      = inl errors
      /\ e ∈ errors /\ loc e = [LField "rating"])
  /\ (exists doc,
      @model_validate sample_validators Review review_asha = inr doc
      /\ doc !! "rating" = review_asha !! "rating").
Proof.
  split.
  - apply (proj1 (@review_rating_bounds sample_validators
                    (<["rating" := VInt 0]> review_asha))).
    left. by_vm.
  - apply (proj2 (@review_rating_bounds sample_validators review_asha)).
    + split; [exists "royal-banarasi-brocade"; by_vm|].
      split; right; right.
      * exists "Stunning craftsmanship!". by_vm.
      * exists "Asha". by_vm.
    + right. by_vm.
Defined.

(** C6 fails as stated for [stock] and [images]: a product payload without
    either of them validates. *)
Lemma product_without_stock_or_images_validates :
  @model_validate sample_validators Product (delete "stock" royal_banarasi)
  = inr (<["stock" := VInt 10]> royal_banarasi)
  /\ @model_validate sample_validators Product (delete "images" royal_banarasi)
     = inr (<["images" := VList []]> royal_banarasi).
Proof. split; by_vm. Qed.

(** [missing_required_field] on the sample product without its title: the
    request is refused and the store is unchanged. *)
Lemma missing_required_field_sample :
  exists errors,
    @model_validate sample_validators Product (delete "title" royal_banarasi)
    = inl errors
    /\ ErrorDetail [LField "title"] missing ∈ errors
    /\ @post_products sample_validators sample_runtime (Some empty_db)
         (delete "title" royal_banarasi)
       = (Raise (RequestValidationError errors), Some empty_db).
Proof.
  destruct (proj2 (@missing_required_field sample_validators)
              Product (delete "title" royal_banarasi) (Field "title" TStr Required))
    as (errors & Hv & Hin & _ & _ & Hpost).
  - unfold Product. rewrite elem_of_cons. by left.
  - reflexivity.
  - by_vm.
  - exists errors. split; [exact Hv|]. split; [exact Hin|]. apply Hpost.
Defined.

(** [product_defaults] on the sample product. *)
Lemma product_defaults_sample :
  @model_validate sample_validators Product
    (delete "images" (delete "stock" royal_banarasi))
  = inr (<["images" := VList []]> (<["stock" := VInt 10]> royal_banarasi)).
Proof.
  destruct (@product_defaults sample_validators royal_banarasi royal_banarasi)
    as (_ & _ & -> & _).
  - by_vm.
  - reflexivity.
Defined.

(** ** The free-text parameter is a pattern *)

(** C2 at [q = "b.n"]: the listing returns the product titled "Royal
    Banarasi Brocade", although ["b.n"] is a substring neither of its title
    nor of its description, in any letter case.  The dot of the pattern
    stands for any character. *)
Theorem list_products_pattern_not_substring :
  @list_products sample_runtime (Some sample_db) (Some "b.n") None None None None 24
  = [ <["id" := VStr "0"]> royal_banarasi ]
  /\ icontains "b.n" "Royal Banarasi Brocade" = false
  /\ icontains "b.n" "Rich zari work with traditional motifs." = false.
Proof. split; [|split]; by_vm. Qed.

(** ** Patterns without metacharacters *)

Lemma fragment_compile_literal (q : string) :
  literal_pattern q = true -> fragment_compile q = Some (map RChar (chars q)).
Proof.
  induction q as [|c q IH]; [done|]. simpl.
  rewrite !andb_true_iff, !negb_true_iff. intros [[[Hb Hd] Hm] Hq].
  rewrite Hb, Hd, Hm, (IH Hq). done.
Qed.

Lemma match_here_literal (q s : string) :
  match_here true (map RChar (chars q)) s = is_prefix (lower q) (lower s).
Proof.
  revert s. induction q as [|c q IH]; intros s; [by destruct s|].
  destruct s as [|x s]; [done|]. simpl. by rewrite IH.
Qed.

Lemma match_anywhere_literal (q s : string) :
  match_anywhere true (map RChar (chars q)) s = icontains q s.
Proof.
  unfold icontains. induction s as [|x s IH].
  - simpl. by rewrite (match_here_literal q "").
  - simpl. by rewrite (match_here_literal q (String x s)), IH.
Qed.

Lemma fragment_search_literal (q s : string) :
  literal_pattern q = true -> fragment_search q "i" s = icontains q s.
Proof.
  intros Hq. unfold fragment_search. rewrite (fragment_compile_literal q Hq).
  change (contains "i" "i") with true. apply match_anywhere_literal.
Qed.

(** X1.  For a [q] without metacharacters the text clause of the product
    listing is the case-insensitive substring test on title or description:
    under the fragment engine, the pattern search and the substring test
    agree on every document. *)
Theorem literal_query_is_substring_search (q : string) (d : document) :
  literal_pattern q = true ->
  @text_matches sample_runtime q d = substring_text_matches q d.
Proof.
  intros Hq. unfold text_matches, substring_text_matches. simpl.
  destruct (d !! "title") as [[]|], (d !! "description") as [[]|];
    by rewrite ?(fragment_search_literal q _ Hq).
Qed.

(** [literal_query_is_substring_search] at [q = "banarasi"]: the sample
    product titled "Royal Banarasi Brocade" matches, the cotton one does
    not. *)
Lemma literal_query_sample :
  @text_matches sample_runtime "banarasi" royal_banarasi = true
  /\ @text_matches sample_runtime "banarasi" summer_breeze = false.
Proof.
  split.
  - rewrite (literal_query_is_substring_search "banarasi" royal_banarasi);
      by_vm.
  - rewrite (literal_query_is_substring_search "banarasi" summer_breeze);
      by_vm.
Defined.

(** ** Further properties of the handlers *)

Section Further.
Context `{Validators} `{Runtime}.

Lemma get_documents_length (db : option Database) (coll : string)
    (filter : option filter_dict) (limit : Z) :
  (length (get_documents db coll filter limit) <= Z.to_nat limit)%nat.
Proof.
  unfold get_documents. destruct db; simpl; [|lia].
  rewrite length_take. lia.
Qed.

(** X2.  The listings of products, vendors and reviews never return more
    than [limit] documents; the listing of categories does so on an
    initialized store. *)
Theorem listings_respect_limit :
  (forall db q saree_type color material occasion limit,
      (length (list_products db q saree_type color material occasion limit)
       <= Z.to_nat limit)%nat)
  /\ (forall db limit, (length (list_vendors db limit) <= Z.to_nat limit)%nat)
  /\ (forall db product_slug limit,
      (length (list_reviews db product_slug limit) <= Z.to_nat limit)%nat)
  /\ (forall D limit,
      (length (list_categories (Some D) limit) <= Z.to_nat limit)%nat).
Proof.
  repeat split; intros;
    unfold list_products, list_vendors, list_reviews, list_categories;
    try (destruct db; [|simpl; lia]);
    rewrite length_map; apply get_documents_length.
Qed.

(** X3.  The identifier rewrite touches only [_id] and [id]: every other
    field of the document is as it was. *)
Theorem normalize_id_frame (d : document) (k : string) :
  k <> "_id" -> k <> "id" -> normalize_id d !! k = d !! k.
Proof. apply normalize_id_other. Qed.

(** X4.  For a review payload whose other fields satisfy their constraints
    and whose [rating] is an integer, validation succeeds exactly when the
    rating lies in 1..5. *)
Theorem review_rating_iff (payload : document) (r : Z) :
  review_rest_ok payload ->
  payload !! "rating" = Some (VInt r) ->
  (exists doc, model_validate Review payload = inr doc) <-> 1 <= r <= 5.
Proof.
  intros Hok Hr. split.
  - intros (doc & Hdoc).
    destruct (decide (1 <= r <= 5)) as [|Hout]; [done|].
    destruct (review_rating_out_of_bounds payload r Hr) as (errs & _ & Herr & _);
      [lia|]. congruence.
  - intros Hin.
    destruct (review_rating_in_bounds payload r Hok Hr Hin) as (doc & ? & _).
    by exists doc.
Qed.

End Further.

(** [normalize_id_frame] on a stored sample product: the title survives the
    rewrite. *)
Lemma normalize_id_frame_sample :
  @normalize_id sample_runtime (<["_id" := VObjectId 0]> royal_banarasi) !! "title"
  = Some (VStr "Royal Banarasi Brocade").
Proof.
  rewrite (@normalize_id_frame sample_runtime); [|done|done].
  by_vm.
Defined.

(** [review_rating_iff] on the sample review, whose rating is 5. *)
Lemma review_rating_iff_sample :
  (exists doc, @model_validate sample_validators Review review_asha = inr doc)
  <-> 1 <= 5 <= 5.
Proof.
  apply (@review_rating_iff sample_validators review_asha 5).
  - split; [exists "royal-banarasi-brocade"; by_vm|].
    split; right; right.
    + exists "Stunning craftsmanship!". by_vm.
    + exists "Asha". by_vm.
  - by_vm.
Defined.

(** * Part V: further properties *)

(** ** What validation returns *)

Section ValidatedDocuments.
Context `{Validators}.

Lemma check_bounds_inr (ge le : option Z) (z : Z) (v : value) :
  check_bounds ge le z = inr v ->
  v = VInt z /\ (forall lo, ge = Some lo -> lo <= z) /\ (forall hi, le = Some hi -> z <= hi).
Proof.
  unfold check_bounds. intros Hc.
  destruct ge as [lo|], le as [hi|];
    repeat match type of Hc with
           | context [?a <? ?b] => destruct (Z.ltb_spec a b)
           end; simplify_eq;
    (split; [done|]); split; intros ? [= <-]; lia.
Qed.

Lemma validate_value_inl_nonempty (t : ftype) (v : value) (errs : list error_detail) :
  validate_value t v = inl errs -> errs <> [].
Proof.
  revert v errs. induction t as [| ge le | | | |t IH|t IH|]; intros v errs Hv; simpl in Hv.
  - destruct v; by simplify_eq.
  - assert (forall z, check_bounds ge le z = inl errs -> errs <> []) as Hb.
    { intros z. unfold check_bounds. intros Hc. repeat case_match; by simplify_eq. }
    destruct v; try by simplify_eq. all: try by eapply Hb.
    destruct (str_as_int s); [by eapply Hb|by simplify_eq].
  - repeat case_match; by simplify_eq.
  - repeat case_match; by simplify_eq.
  - repeat case_match; by simplify_eq.
  - destruct v; first [done | by apply (IH _ _ Hv)].
  - destruct v; try by simplify_eq.
    destruct (validate_items (validate_value t) 0 l) as [[|e0 errs0] vs]; by simplify_eq.
  - destruct v; by simplify_eq.
Qed.

Lemma validate_field_inl_nonempty (payload : document) (f : field_info)
    (errs : list error_detail) :
  validate_field payload f = inl errs -> errs <> [].
Proof.
  unfold validate_field. destruct (payload !! f_name f) as [v|].
  - destruct (validate_value (f_annotation f) v) as [e|] eqn:Hv; [|done].
    intros [= <-]. apply validate_value_inl_nonempty in Hv. by destruct e.
  - destruct (f_default f); by intros [= <-].
Qed.

Lemma validate_items_inr (validate : value -> list error_detail + value)
    (i : nat) (l vs : list value) :
  (forall v errs, validate v = inl errs -> errs <> []) ->
  validate_items validate i l = ([], vs) ->
  Forall2 (fun x x' => validate x = inr x') l vs.
Proof.
  intros Hne. revert i vs. induction l as [|x l IH]; intros i vs Hv; simpl in Hv.
  - simplify_eq. constructor.
  - destruct (validate_items validate (S i) l) as [errs vs0] eqn:Hrest.
    destruct (validate x) as [e|x'] eqn:Hx; simplify_eq.
    + match goal with Happ : _ ++ _ = [] |- _ => apply app_eq_nil in Happ as [He _] end.
      apply Hne in Hx. by destruct e.
    + constructor; [done|]. by eapply IH.
Qed.

Lemma validate_items_stable (validate : value -> list error_detail + value)
    (i : nat) (vs : list value) :
  Forall (fun x => validate x = inr x) vs ->
  validate_items validate i vs = ([], vs).
Proof.
  intros Hall. revert i. induction Hall as [|x vs Hx _ IH]; intros i; [done|].
  simpl. by rewrite IH, Hx.
Qed.

(** A value that validates is turned into a value of the annotated type. *)
Lemma validate_value_has_type (t : ftype) (v v' : value) :
  validate_value t v = inr v' -> has_type t v'.
Proof.
  revert v v'. induction t as [| ge le | | | |t IH|t IH|]; intros v v' Hv; simpl in Hv.
  - destruct v; simplify_eq. by eexists.
  - assert (forall z, check_bounds ge le z = inr v' -> has_type (TInt ge le) v') as Hb.
    { intros z Hc. apply check_bounds_inr in Hc as (-> & ? & ?). by exists z. }
    destruct v; try by simplify_eq. all: try by eapply Hb.
    destruct (str_as_int s); [by eapply Hb|by simplify_eq].
  - repeat case_match; simplify_eq; by eexists.
  - repeat case_match; simplify_eq. by do 2 eexists.
  - repeat case_match; simplify_eq. eexists. split; [done|].
    by match goal with Hd : bool_decide _ = true |- _ => apply bool_decide_eq_true in Hd end.
  - simpl. destruct v; first [by left; simplify_eq | right; by apply (IH _ _ Hv)].
  - destruct v; try by simplify_eq.
    destruct (validate_items (validate_value t) 0 l) as [[|e0 errs0] vs] eqn:Hitems;
      simplify_eq.
    exists vs. split; [done|].
    apply validate_items_inr in Hitems; [|apply validate_value_inl_nonempty].
    clear -Hitems IH. induction Hitems as [|x x' l vs Hx _ IHl]; constructor; [|done].
    by eapply IH.
  - destruct v; simplify_eq. by eexists.
Qed.

(** Validating a validated value changes nothing. *)
Lemma validate_value_stable (t : ftype) (v v' : value) :
  url_parser_idempotent ->
  validate_value t v = inr v' -> validate_value t v' = inr v'.
Proof.
  intros Hurl. revert v v'.
  induction t as [| ge le | | | |t IH|t IH|]; intros v v' Hv; simpl in Hv.
  - destruct v; by simplify_eq.
  - assert (forall z, check_bounds ge le z = inr v' ->
                      validate_value (TInt ge le) v' = inr v') as Hb.
    { intros z Hc. destruct (check_bounds_inr _ _ _ _ Hc) as (-> & _). exact Hc. }
    destruct v; try by simplify_eq. all: try by eapply Hb.
    destruct (str_as_int s); [by eapply Hb|by simplify_eq].
  - repeat case_match; by simplify_eq.
  - repeat case_match; simplify_eq. simpl.
    by match goal with Hp : parse_http_url _ = Some _ |- _ => rewrite (Hurl _ _ Hp) end.
  - repeat case_match; simplify_eq. simpl.
    by match goal with Hd : bool_decide _ = true |- _ => rewrite Hd end.
  - simpl. destruct v; try (apply IH in Hv; by destruct v').
    by simplify_eq.
  - destruct v; try by simplify_eq.
    destruct (validate_items (validate_value t) 0 l) as [[|e0 errs0] vs] eqn:Hitems;
      simplify_eq. simpl.
    apply validate_items_inr in Hitems; [|apply validate_value_inl_nonempty].
    rewrite validate_items_stable; [done|].
    clear -Hitems IH. induction Hitems as [|x x' l vs Hx _ IHl]; constructor; [|done].
    by eapply IH.
  - destruct v; by simplify_eq.
Qed.

Lemma validate_fields_all_ok (m : model) (payload doc : document) :
  validate_fields m payload = ([], doc) ->
  Forall (fun f => exists v, validate_field payload f = inr v) m.
Proof.
  revert doc. induction m as [|f rest IH]; intros doc Hv; [constructor|].
  simpl in Hv. destruct (validate_fields rest payload) as [errs0 doc0].
  destruct (validate_field payload f) as [e|v] eqn:Hf; simplify_eq.
  - match goal with Happ : _ ++ _ = [] |- _ => apply app_eq_nil in Happ as [-> _] end.
    by apply validate_field_inl_nonempty in Hf.
  - constructor; [by exists v|]. by eapply IH.
Qed.

(** The validated document holds, under each name, what the first field of
    that name validates to, and nothing else. *)
Lemma validate_fields_lookup (m : model) (payload doc : document) (k : string) :
  validate_fields m payload = ([], doc) ->
  doc !! k = f ← lookup_field k m;
             match validate_field payload f with
             | inr v => Some v
             | inl _ => None
             end.
Proof.
  revert doc. induction m as [|f rest IH]; intros doc Hv.
  - simpl in Hv. simplify_eq. apply lookup_empty.
  - pose proof (validate_fields_all_ok _ _ _ Hv) as Hall.
    apply Forall_cons in Hall as [[v Hf] _].
    simpl in Hv. destruct (validate_fields rest payload) as [errs0 doc0].
    rewrite Hf in Hv. simplify_eq.
    unfold lookup_field. simpl. destruct (decide (f_name f = k)) as [<-|Hne].
    + rewrite bool_decide_eq_true_2 by done. simpl. rewrite Hf. apply lookup_insert_eq.
    + rewrite bool_decide_eq_false_2 by done. rewrite lookup_insert_ne by done.
      by apply IH.
Qed.

Lemma lookup_field_Some (k : string) (m : model) (f : field_info) :
  lookup_field k m = Some f -> f ∈ m /\ f_name f = k.
Proof.
  unfold lookup_field. intros Hf. apply List.find_some in Hf as [Hin Hk].
  split; [by apply list_elem_of_In|]. by apply bool_decide_eq_true in Hk.
Qed.

Lemma lookup_field_name (k : string) (m : model) :
  k ∈ field_names m -> exists f, lookup_field k m = Some f.
Proof.
  unfold field_names, lookup_field. induction m as [|g rest IH]; simpl.
  - by intros ?%not_elem_of_nil.
  - intros Hk. destruct (decide (f_name g = k)) as [Hg|Hg].
    + rewrite bool_decide_eq_true_2 by done. by eexists.
    + rewrite bool_decide_eq_false_2 by done. apply IH.
      apply elem_of_cons in Hk as [?|?]; [congruence|done].
Qed.

Lemma lookup_field_own (m : model) (f : field_info) :
  NoDup (field_names m) -> f ∈ m -> lookup_field (f_name f) m = Some f.
Proof.
  unfold field_names, lookup_field. induction m as [|g rest IH]; simpl.
  - by intros _ ?%not_elem_of_nil.
  - intros [Hg Hnd]%NoDup_cons Hf. apply elem_of_cons in Hf as [<-|Hf].
    + by rewrite bool_decide_eq_true_2.
    + rewrite bool_decide_eq_false_2; [by apply IH|].
      intros Heq. apply Hg. rewrite Heq. by apply list_elem_of_fmap_2.
Qed.

(** X6.  A validated document has exactly the fields of its model as keys:
    every field is there, with its default when the payload lacks it, and a
    key of the payload that is no field of the model is dropped. *)
Theorem validated_document_keys (m : model) (payload doc : document) (k : string) :
  model_validate m payload = inr doc ->
  is_Some (doc !! k) <-> k ∈ field_names m.
Proof.
  intros Hv%model_validate_inr.
  rewrite (validate_fields_lookup _ _ _ k Hv). split.
  - intros [v Hk]. destruct (lookup_field k m) as [f|] eqn:Hf; [|done].
    apply lookup_field_Some in Hf as [Hin <-]. by apply list_elem_of_fmap_2.
  - intros [f Hf]%lookup_field_name. rewrite Hf. simpl.
    apply lookup_field_Some in Hf as [Hin _].
    pose proof (validate_fields_all_ok _ _ _ Hv) as Hall.
    rewrite Forall_forall in Hall. destruct (Hall f Hin) as [v ->]. by eexists.
Qed.

Lemma models_field_names_NoDup (m : model) : m ∈ models -> NoDup (field_names m).
Proof.
  unfold models. rewrite !elem_of_cons.
  intros [->|[->|[->|[->|[->|?%not_elem_of_nil]]]]]; [..|done];
    unfold field_names; simpl;
    apply (bool_decide_eq_true_1 (NoDup _)); by_vm.
Qed.

Lemma models_defaults_sound (m : model) : m ∈ models -> defaults_sound m.
Proof.
  unfold models. rewrite !elem_of_cons.
  intros [->|[->|[->|[->|[->|?%not_elem_of_nil]]]]]; [..|done];
    intros f v Hf Hd;
    repeat (apply elem_of_cons in Hf as [->|Hf]; [simpl in Hd; simplify_eq|]);
    try (by apply not_elem_of_nil in Hf);
    (split; [simpl|reflexivity]);
    first [ by left | by eexists | (eexists; split; [done|]; set_solver)
          | (eexists; split; [done|]; by repeat constructor; lia)
          | (eexists; split; [done|split; intros ? [= <-]; lia]) ].
Qed.

Lemma validated_field (m : model) (payload doc : document) (f : field_info) :
  NoDup (field_names m) -> f ∈ m ->
  validate_fields m payload = ([], doc) ->
  exists v, validate_field payload f = inr v /\ doc !! f_name f = Some v.
Proof.
  intros Hnd Hf Hv.
  pose proof (validate_fields_all_ok _ _ _ Hv) as Hall.
  rewrite Forall_forall in Hall. destruct (Hall f Hf) as [v Hfv].
  exists v. split; [done|].
  rewrite (validate_fields_lookup _ _ _ _ Hv), (lookup_field_own _ _ Hnd Hf).
  simpl. by rewrite Hfv.
Qed.

Lemma validated_field_has_type (m : model) (payload doc : document)
    (f : field_info) :
  m ∈ models -> model_validate m payload = inr doc -> f ∈ m ->
  exists v, doc !! f_name f = Some v /\ has_type (f_annotation f) v.
Proof.
  intros Hm Hv%model_validate_inr Hf.
  destruct (validated_field m payload doc f (models_field_names_NoDup m Hm) Hf Hv)
    as (v & Hfv & Hdoc).
  exists v. split; [done|].
  unfold validate_field in Hfv. destruct (payload !! f_name f) as [v0|].
  - destruct (validate_value (f_annotation f) v0) as [|v1] eqn:Hv1; simplify_eq.
    by eapply validate_value_has_type.
  - destruct (f_default f) as [|d] eqn:Hd; simplify_eq.
    by apply (models_defaults_sound m Hm f v Hf Hd).
Qed.

(** X7.  A document validated against one of the five models holds, for
    every field, a value of the annotated type: strings for [str], integers
    within the declared bounds ([price_in_paise], [stock], [total_in_paise]
    at least 0, [rating] within 1..5), one of the declared choices for a
    [Literal], [None] or the type for an [Optional], and so on. *)
Theorem validated_document_well_typed (m : model) (payload doc : document)
    (f : field_info) :
  m ∈ models -> model_validate m payload = inr doc -> f ∈ m ->
  exists v, doc !! f_name f = Some v /\ has_type (f_annotation f) v.
Proof. apply validated_field_has_type. Qed.

(** X8.  Validation is idempotent on its results: a document validated
    against one of the five models validates again, to itself (given that
    parsing a parsed URL gives it back). *)
Theorem revalidation_is_identity (m : model) (payload doc : document) :
  url_parser_idempotent ->
  m ∈ models -> model_validate m payload = inr doc ->
  model_validate m doc = inr doc.
Proof.
  intros Hurl Hm Hv%model_validate_inr. apply model_validate_inr.
  pose proof (models_field_names_NoDup m Hm) as Hnd.
  assert (forall f, f ∈ m -> validate_field doc f = validate_field payload f) as Hsame.
  { intros f Hf.
    destruct (validated_field m payload doc f Hnd Hf Hv) as (v & Hfv & Hdoc).
    rewrite Hfv. unfold validate_field in *. rewrite Hdoc.
    destruct (payload !! f_name f) as [v0|].
    - destruct (validate_value (f_annotation f) v0) as [|v1] eqn:Hv1; simplify_eq.
      by rewrite (validate_value_stable _ _ _ Hurl Hv1).
    - destruct (f_default f) as [|d] eqn:Hd; simplify_eq.
      by rewrite (proj2 (models_defaults_sound m Hm f v Hf Hd)). }
  rewrite <- Hv. clear Hv Hnd Hm.
  induction m as [|f rest IH]; [done|]. simpl.
  rewrite IH by (intros g Hg; apply Hsame; by right).
  by rewrite Hsame by by left.
Qed.

(** X9.  When validation fails there is at least one error, and every error
    is located at a field of the model. *)
Theorem validation_errors_are_located (m : model) (payload : document)
    (errors : list error_detail) :
  model_validate m payload = inl errors ->
  errors <> []
  /\ forall e, e ∈ errors ->
               exists f rest, f ∈ m /\ loc e = LField (f_name f) :: rest.
Proof.
  intros [-> Hne]%model_validate_inl. split; [done|].
  intros e (f & Hf & He)%elem_of_flat_map. exists f.
  unfold field_errors, validate_field in He.
  destruct (payload !! f_name f) as [v|].
  - destruct (validate_value (f_annotation f) v) as [errs|].
    + apply list_elem_of_fmap in He as (e0 & -> & _). by eexists.
    + by apply not_elem_of_nil in He.
  - destruct (f_default f).
    + apply list_elem_of_singleton in He as ->. by eexists.
    + by apply not_elem_of_nil in He.
Qed.

End ValidatedDocuments.

(** ** What the read handlers return *)

Section ReadHandlers.
Context `{Runtime}.

Lemma fallback_categories_no_internal_id (d : document) :
  d ∈ fallback_categories -> d !! "_id" = None.
Proof.
  unfold fallback_categories. rewrite !elem_of_cons.
  intros [->|[->|[->|[->|[->|?%not_elem_of_nil]]]]]; [..|done]; by_vm.
Qed.

Lemma normalized_no_internal_id (docs : list document) (d : document) :
  d ∈ map normalize_id docs -> d !! "_id" = None.
Proof. intros (d0 & -> & _)%list_elem_of_fmap. apply normalize_id_internal. Qed.

(** X5.  No read handler lets the internal identifier out: no document of
    a listing has an [_id], and neither has the product or vendor fetched by
    slug, nor any review or product embedded in it. *)
Theorem read_handlers_hide_internal_id :
  (forall db q saree_type color material occasion limit d,
      d ∈ list_products db q saree_type color material occasion limit ->
      d !! "_id" = None)
  /\ (forall db limit d, d ∈ list_vendors db limit -> d !! "_id" = None)
  /\ (forall db product_slug limit d,
      d ∈ list_reviews db product_slug limit -> d !! "_id" = None)
  /\ (forall db limit d, d ∈ list_categories db limit -> d !! "_id" = None)
  /\ (forall db slug doc,
      get_product db slug = Return doc ->
      doc !! "_id" = None
      /\ exists reviews,
          doc !! "reviews" = Some (VList (map VDict reviews))
          /\ forall r, r ∈ reviews -> r !! "_id" = None)
  /\ (forall db slug doc,
      get_vendor db slug = Return doc ->
      doc !! "_id" = None
      /\ exists products,
          doc !! "products" = Some (VList (map VDict products))
          /\ forall p, p ∈ products -> p !! "_id" = None).
Proof.
  split; [|split; [|split; [|split; [|split]]]].
  - intros [D|] *; [apply normalized_no_internal_id|by intros ?%not_elem_of_nil].
  - intros [D|] *; [apply normalized_no_internal_id|by intros ?%not_elem_of_nil].
  - intros [D|] *; [apply normalized_no_internal_id|by intros ?%not_elem_of_nil].
  - intros [D|] *; [apply normalized_no_internal_id|apply fallback_categories_no_internal_id].
  - intros [D|] slug doc; unfold get_product; [|done].
    destruct (get_documents _ "product" _ _) as [|d ?]; [done|]. intros [= <-]. split.
    + rewrite lookup_insert_ne by done. apply normalize_id_internal.
    + eexists. split; [apply lookup_insert_eq|]. apply normalized_no_internal_id.
  - intros [D|] slug doc; unfold get_vendor; [|done].
    destruct (get_documents _ "vendor" _ _) as [|d ?]; [done|]. intros [= <-]. split.
    + rewrite lookup_insert_ne by done. apply normalize_id_internal.
    + eexists. split; [apply lookup_insert_eq|]. apply normalized_no_internal_id.
Qed.

Lemma matching_nil (field s : string) (docs : list document) :
  matching field s docs = []
  <-> forall d, d ∈ docs -> d !! field <> Some (VStr s).
Proof.
  unfold matching. induction docs as [|d l IH]; simpl.
  - split; [|done]. by intros _ d ?%not_elem_of_nil.
  - destruct (field_is field s d) eqn:Hd.
    + split; [done|]. intros Hall. apply field_is_true in Hd.
      by destruct (Hall d (list_elem_of_here _ _)).
    + rewrite IH. split.
      * intros Hall d' [->|?]%elem_of_cons; [|by apply Hall].
        intros Hd'%field_is_true. congruence.
      * intros Hall d' Hd'. apply Hall. by right.
Qed.

Lemma lookup_by_slug_nil (D : Database) (coll slug : string) :
  get_documents (Some D) coll (Some [("slug", FValue slug)]) 1 = []
  <-> matching "slug" slug (collection D coll) = [].
Proof.
  rewrite get_documents_by_field. change (Z.to_nat 1) with 1%nat.
  unfold matching. by destruct (List.filter _ _).
Qed.

(** X10.  On an initialized store a product is found by slug exactly when
    some stored product has that string as its [slug], compared character
    for character; otherwise the handler raises the 404 exception.  The
    same holds of vendors. *)
Theorem slug_lookup_found_iff (D : Database) (slug : string) :
  ((exists doc, get_product (Some D) slug = Return doc)
   <-> exists d, d ∈ collection D "product" /\ d !! "slug" = Some (VStr slug))
  /\ (get_product (Some D) slug = Raise (HTTPException 404 "Product not found")
      <-> forall d, d ∈ collection D "product" -> d !! "slug" <> Some (VStr slug))
  /\ ((exists doc, get_vendor (Some D) slug = Return doc)
      <-> exists d, d ∈ collection D "vendor" /\ d !! "slug" = Some (VStr slug))
  /\ (get_vendor (Some D) slug = Raise (HTTPException 404 "Vendor not found")
      <-> forall d, d ∈ collection D "vendor" -> d !! "slug" <> Some (VStr slug)).
Proof.
  assert (forall coll,
             (exists d, d ∈ collection D coll /\ d !! "slug" = Some (VStr slug))
             <-> matching "slug" slug (collection D coll) <> []) as Hex.
  { intros coll. rewrite matching_nil. split.
    - intros (d & Hd & Hs) Hall. by apply (Hall d).
    - intros Hnot. destruct (matching "slug" slug (collection D coll)) as [|d l] eqn:Hm.
      + destruct Hnot. by apply matching_nil.
      + exists d. assert (In d (matching "slug" slug (collection D coll))) as Hin
          by (rewrite Hm; by left).
        apply List.filter_In in Hin as [Hin Hs]. split; [by apply list_elem_of_In|].
        by apply field_is_true. }
  split; [|split; [|split]].
  - rewrite Hex, <- lookup_by_slug_nil. unfold get_product.
    destruct (get_documents _ "product" _ _); split; try done; [by intros [? ?]|by eexists].
  - rewrite <- matching_nil, <- lookup_by_slug_nil. unfold get_product.
    by destruct (get_documents _ "product" _ _).
  - rewrite Hex, <- lookup_by_slug_nil. unfold get_vendor.
    destruct (get_documents _ "vendor" _ _); split; try done; [by intros [? ?]|by eexists].
  - rewrite <- matching_nil, <- lookup_by_slug_nil. unfold get_vendor.
    by destruct (get_documents _ "vendor" _ _).
Qed.

(** X11.  The reviews embedded in a fetched product are the answer of the
    review listing for the same slug with limit 50. *)
Theorem embedded_reviews_are_review_listing (db : option Database) (slug : string)
    (doc : document) :
  get_product db slug = Return doc ->
  doc !! "reviews" = Some (VList (map VDict (list_reviews db slug 50))).
Proof.
  unfold get_product, list_reviews. destruct db as [D|]; [|done].
  destruct (get_documents _ "product" _ _); [done|]. intros [= <-].
  apply lookup_insert_eq.
Qed.

End ReadHandlers.

(** ** Creating, then reading *)

Section CreateThenRead.
Context `{Validators} `{Runtime}.

Lemma create_document_initialized (D : Database) (coll : string) (data : document) :
  create_document (Some D) coll data
  = (Return (str (VObjectId (next_oid D))), Some (store_with D coll data)).
Proof. reflexivity. Qed.

Lemma collection_store_with (D : Database) (coll coll' : string) (data : document) :
  collection (store_with D coll data) coll'
  = if decide (coll' = coll)
    then collection D coll ++ [<["_id" := VObjectId (next_oid D)]> data]
    else collection D coll'.
Proof.
  unfold collection at 1, store_with. simpl. destruct (decide (coll' = coll)) as [->|Hne].
  - by rewrite lookup_insert_eq.
  - by rewrite lookup_insert_ne.
Qed.

Lemma matching_app (field s : string) (l k : list document) :
  matching field s (l ++ k) = matching field s l ++ matching field s k.
Proof. apply List.filter_app. Qed.

Lemma normalize_id_stored (data : document) (oid : value) :
  normalize_id (<["_id" := oid]> data) = <["id" := VStr (str oid)]> (delete "_id" data).
Proof.
  unfold normalize_id. rewrite lookup_insert_eq. by rewrite delete_insert_eq.
Qed.

(** X12.  Creating a product on an initialized store always succeeds and
    answers with the string form of the fresh identifier; no check is made
    on the slug.  Afterwards a fetch by the new product's slug returns it,
    with its identifier under [id] and the stored reviews of that slug,
    provided no earlier product has the slug; if one has, the fetch still
    returns the earlier product.  A fetch by any other slug answers as
    before. *)
Theorem create_product_then_get (D : Database) (body : document) :
  let pid := str (VObjectId (next_oid D)) in
  let D' := store_with D "product" body in
  create_product (Some D) body = (Return {[ "id" := VStr pid ]}, Some D')
  /\ (forall slug,
      body !! "slug" = Some (VStr slug) ->
      matching "slug" slug (collection D "product") = [] ->
      get_product (Some D') slug
      = Return (<["reviews" := VList (map VDict (list_reviews (Some D) slug 50))]>
                  (<["id" := VStr pid]> (delete "_id" body))))
  /\ (forall slug,
      matching "slug" slug (collection D "product") <> [] ->
      get_product (Some D') slug = get_product (Some D) slug)
  /\ (forall slug,
      body !! "slug" <> Some (VStr slug) ->
      get_product (Some D') slug = get_product (Some D) slug).
Proof.
  intros pid D'. subst pid D'. split; [reflexivity|].
  assert (forall slug,
             get_documents (Some (store_with D "product" body)) "review"
               (Some [("product_slug", FValue slug)]) 50
             = get_documents (Some D) "review" (Some [("product_slug", FValue slug)]) 50)
    as Hreviews.
  { intros slug. rewrite !get_documents_by_field, collection_store_with.
    by rewrite decide_False. }
  assert (forall slug,
             get_documents (Some (store_with D "product" body)) "product"
               (Some [("slug", FValue slug)]) 1
             = take 1 (matching "slug" slug (collection D "product")
                       ++ matching "slug" slug [<["_id" := VObjectId (next_oid D)]> body]))
    as Hproducts.
  { intros slug. rewrite get_documents_by_field, collection_store_with.
    rewrite decide_True by done. apply (f_equal (take 1)), List.filter_app. }
  assert (forall slug,
             field_is "slug" slug (<["_id" := VObjectId (next_oid D)]> body)
             = field_is "slug" slug body) as Hnew.
  { intros slug. unfold field_is. by rewrite lookup_insert_ne. }
  split; [|split].
  - intros slug Hslug Hnone. unfold get_product, list_reviews.
    rewrite Hproducts, Hreviews, Hnone. unfold matching at 1. simpl.
    rewrite Hnew. apply field_is_true in Hslug as ->. simpl.
    by rewrite normalize_id_stored.
  - intros slug Hsome. unfold get_product. rewrite Hproducts, Hreviews.
    rewrite !get_documents_by_field. change (Z.to_nat 1) with 1%nat.
    fold (matching "slug" slug (collection D "product")).
    by destruct (matching "slug" slug (collection D "product")).
  - intros slug Hother. unfold get_product. rewrite Hproducts, Hreviews.
    rewrite !get_documents_by_field. change (Z.to_nat 1) with 1%nat.
    fold (matching "slug" slug (collection D "product")).
    unfold matching at 2. simpl. rewrite Hnew.
    destruct (field_is "slug" slug body) eqn:Hb.
    + by apply field_is_true in Hb.
    + by rewrite app_nil_r.
Qed.

(** X13.  An order request that validates on an initialized store is
    answered with the identifier and with the status of the validated
    order: ["pending"] when the payload has no [status], the payload's
    status when it names one, and in every case one of the five declared
    statuses. *)
Theorem post_orders_status (D : Database) (payload body : document) :
  model_validate Order payload = inr body ->
  exists status,
    post_orders (Some D) payload
    = (Return (<["status" := VStr status]>
                 {[ "id" := VStr (str (VObjectId (next_oid D))) ]}),
       Some (store_with D "order" body))
    /\ status ∈ ["pending"; "paid"; "dispatched"; "delivered"; "refunded"]
    /\ (payload !! "status" = None -> status = "pending")
    /\ (forall s, payload !! "status" = Some (VStr s) -> status = s).
Proof.
  intros Hv.
  set (f := Field "status"
              (TLiteral ["pending"; "paid"; "dispatched"; "delivered"; "refunded"])
              (Default (VStr "pending"))).
  assert (Order ∈ models) as Hm by (apply list_elem_of_In; simpl; tauto).
  assert (f ∈ Order) as Hf by (apply list_elem_of_In; simpl; tauto).
  destruct (validated_field Order payload body f (models_field_names_NoDup _ Hm) Hf)
    as (v & Hfv & Hbody); [by apply model_validate_inr|].
  destruct (validated_field_has_type Order payload body f Hm Hv Hf)
    as (v' & Hbody' & s & -> & Hs).
  simpl in Hbody, Hbody'. rewrite Hbody in Hbody'. injection Hbody' as ->.
  exists s. split; [|split; [done|split]].
  - unfold post_orders, post, CreateOrderBody. rewrite Hv.
    unfold create_order. rewrite create_document_initialized. by rewrite Hbody.
  - intros Hnone. unfold validate_field in Hfv. simpl in Hfv. rewrite Hnone in Hfv.
    by simplify_eq.
  - intros s' Hs'. unfold validate_field in Hfv. simpl in Hfv. rewrite Hs' in Hfv.
    simpl in Hfv. destruct (bool_decide _); by simplify_eq.
Qed.

Lemma with_limit_bounds (default_value : Z) (raw : option string)
    (handler : Z -> list document) (docs : list document) :
  (forall limit, (length (handler limit) <= Z.to_nat limit)%nat) ->
  default_value <= 100 ->
  with_limit default_value raw handler = Return docs ->
  (length docs <= 100)%nat
  /\ (raw = None -> (length docs <= Z.to_nat default_value)%nat).
Proof.
  intros Hlen Hdefault. unfold with_limit, Query. destruct raw as [s|].
  - destruct (str_as_int s) as [z|]; [|done].
    destruct (Z.ltb_spec z 1); [done|]. destruct (Z.ltb_spec 100 z); [done|].
    intros [= <-]. split; [|done]. specialize (Hlen z). lia.
  - intros [= <-]. specialize (Hlen default_value). split; [lia|by intros _].
Qed.

Lemma list_handlers_length :
  (forall db q saree_type color material occasion limit,
      (length (list_products db q saree_type color material occasion limit)
       <= Z.to_nat limit)%nat)
  /\ (forall db limit, (length (list_vendors db limit) <= Z.to_nat limit)%nat)
  /\ (forall db product_slug limit,
      (length (list_reviews db product_slug limit) <= Z.to_nat limit)%nat).
Proof.
  repeat split; intros;
    unfold list_products, list_vendors, list_reviews;
    (destruct db; [|simpl; lia]);
    rewrite length_map; apply get_documents_length.
Qed.

(** X14.  A listing requested with a [limit] parameter answers with at
    most 100 documents and, when the parameter is absent, with at most the
    default (24 products; 20 vendors or reviews).  A parameter that is no
    integer or lies outside 1..100 is refused and the handler does not run.
    The category listing does not apply the limit when there is no store:
    it then answers with its five built-in categories even for limit 1. *)
Theorem limit_parameter_bounds :
  (forall db q saree_type color material occasion raw docs,
      list_products_request db q saree_type color material occasion raw = Return docs ->
      (length docs <= 100)%nat /\ (raw = None -> (length docs <= 24)%nat))
  /\ (forall db raw docs,
      list_vendors_request db raw = Return docs ->
      (length docs <= 100)%nat /\ (raw = None -> (length docs <= 20)%nat))
  /\ (forall db product_slug raw docs,
      list_reviews_request db product_slug raw = Return docs ->
      (length docs <= 100)%nat /\ (raw = None -> (length docs <= 20)%nat))
  /\ (forall default_value s handler,
      (forall z, str_as_int s = Some z -> z < 1 \/ 100 < z) ->
      exists errors,
        with_limit default_value (Some s) handler = Raise (RequestValidationError errors))
  /\ (forall s,
      str_as_int s = Some 1 ->
      exists docs, list_categories_request None (Some s) = Return docs
                   /\ length docs = 5%nat).
Proof.
  destruct list_handlers_length as (Hp & Hv & Hr).
  split; [|split; [|split; [|split]]].
  - intros *. apply with_limit_bounds; [intros; apply Hp|lia].
  - intros *. apply with_limit_bounds; [intros; apply Hv|lia].
  - intros *. apply with_limit_bounds; [intros; apply Hr|lia].
  - intros default_value s handler Hout. unfold with_limit, Query.
    destruct (str_as_int s) as [z|]; [|by eexists].
    destruct (Hout z eq_refl).
    + destruct (Z.ltb_spec z 1); [by eexists|lia].
    + destruct (Z.ltb_spec z 1); [by eexists|].
      destruct (Z.ltb_spec 100 z); [by eexists|lia].
  - intros s Hs. unfold list_categories_request, with_limit, Query. rewrite Hs.
    simpl. eexists. split; [done|]. reflexivity.
Qed.

End CreateThenRead.

(** ** Seeding *)

Section Seeding.
Context `{Runtime}.

Lemma create_each_spec (D : Database) (coll : string) (docs : list document) (n : Z) :
  create_each D coll docs n
  = (Return (n + Z.of_nat (length docs)), store_with_all D coll docs).
Proof.
  revert D n. induction docs as [|c rest IH]; intros D n; simpl.
  - f_equal. f_equal. lia.
  - rewrite IH. f_equal. f_equal. lia.
Qed.

Lemma seed_block_spec (D : Database) (coll : string) (docs : list document) :
  seed_block D coll docs = (Return (seed_count D coll docs), seeded_block D coll docs).
Proof.
  unfold seed_block, seed_count, seeded_block.
  destruct (collection D coll); [|done]. by rewrite create_each_spec.
Qed.

Lemma collection_store_with_all (D : Database) (coll coll' : string)
    (docs : list document) :
  collection (store_with_all D coll docs) coll'
  = if decide (coll' = coll)
    then collection D coll ++ stamped (next_oid D) docs
    else collection D coll'.
Proof.
  revert D. induction docs as [|c rest IH]; intros D; simpl.
  - destruct (decide _) as [->|]; [by rewrite app_nil_r|done].
  - rewrite IH. destruct (decide (coll' = coll)) as [->|Hne].
    + rewrite collection_store_with, decide_True by done.
      by rewrite <- app_assoc.
    + by rewrite collection_store_with, decide_False.
Qed.

Lemma collection_seeded_block (D : Database) (coll coll' : string)
    (docs : list document) :
  collection (seeded_block D coll docs) coll'
  = if decide (coll' = coll)
    then match collection D coll with
         | [] => stamped (next_oid D) docs
         | _ :: _ => collection D coll
         end
    else collection D coll'.
Proof.
  unfold seeded_block. destruct (collection D coll) as [|d l] eqn:Hc.
  - rewrite collection_store_with_all. destruct (decide _) as [->|]; [|done].
    by rewrite Hc.
  - destruct (decide _) as [->|]; [|done]. by rewrite Hc.
Qed.

Lemma stamped_strip (n : N) (docs : list document) :
  Forall (fun c => c !! "_id" = None) docs ->
  map (delete "_id") (stamped n docs) = docs.
Proof.
  intros Hall. revert n. induction Hall as [|c rest Hc _ IH]; intros n; [done|].
  simpl. rewrite IH. f_equal. rewrite delete_insert_eq. by apply delete_id.
Qed.

Lemma stamped_nil (n : N) (docs : list document) : stamped n docs = [] -> docs = [].
Proof. by destruct docs. Qed.

Lemma seed_documents_plain (coll : string) (docs : list document) :
  (coll, docs) ∈ seed_collections ->
  docs <> [] /\ Forall (fun c => c !! "_id" = None /\ c !! "id" = None) docs.
Proof.
  unfold seed_collections. rewrite !elem_of_cons.
  intros [[= -> ->]|[[= -> ->]|[[= -> ->]|[[= -> ->]|?%not_elem_of_nil]]]]; [..|done];
    (split; [done|]); repeat constructor; by_vm.
Qed.

(** The collection of a seed block in the seeded store. *)
Lemma collection_seeded (D : Database) (coll : string) (docs : list document) :
  (coll, docs) ∈ seed_collections ->
  exists n,
    collection (seeded D) coll
    = match collection D coll with
      | [] => stamped n docs
      | _ :: _ => collection D coll
      end.
Proof.
  unfold seed_collections, seeded. rewrite !elem_of_cons.
  intros [[= -> ->]|[[= -> ->]|[[= -> ->]|[[= -> ->]|?%not_elem_of_nil]]]]; [..|done];
    eexists; repeat (rewrite collection_seeded_block; simpl); reflexivity.
Qed.

Lemma collection_seeded_other (D : Database) (coll : string) :
  coll ∉ ["category"; "vendor"; "product"; "review"] ->
  collection (seeded D) coll = collection D coll.
Proof.
  rewrite !not_elem_of_cons. intros (? & ? & ? & ? & _). unfold seeded.
  rewrite !collection_seeded_block. by rewrite !decide_False.
Qed.

Lemma seed_data_initialized (D : Database) :
  seed_data (Some D)
  = (Return {[ "seeded" :=
                 VDict (doc_of
                   [ ("categories", VInt (seed_count D "category" seed_categories));
                     ("vendors", VInt (seed_count D "vendor" seed_vendors));
                     ("products", VInt (seed_count D "product" seed_products));
                     ("reviews", VInt (seed_count D "review" seed_reviews)) ]) ]},
     Some (seeded D)).
Proof.
  unfold seed_data, seeded. rewrite !seed_block_spec.
  unfold seed_count at 2 3 4. rewrite !collection_seeded_block. simpl.
  reflexivity.
Qed.

(** X15.  On an initialized store [seed_data] never fails.  It fills each
    of the four collections (category, vendor, product, review) that is
    empty with its documents, stored as written, and reports their number;
    a collection that already holds a document is left as it is and
    reported with 0; no other collection is touched.  Afterwards none of
    the four is empty. *)
Theorem seed_data_fills_empty_collections (D : Database) :
  seed_data (Some D)
  = (Return {[ "seeded" :=
                 VDict (doc_of
                   [ ("categories", VInt (seed_count D "category" seed_categories));
                     ("vendors", VInt (seed_count D "vendor" seed_vendors));
                     ("products", VInt (seed_count D "product" seed_products));
                     ("reviews", VInt (seed_count D "review" seed_reviews)) ]) ]},
     Some (seeded D))
  /\ (forall coll docs,
      (coll, docs) ∈ seed_collections ->
      (collection D coll = [] ->
       seed_count D coll docs = Z.of_nat (length docs)
       /\ map (delete "_id") (collection (seeded D) coll) = docs)
      /\ (collection D coll <> [] ->
          seed_count D coll docs = 0
          /\ collection (seeded D) coll = collection D coll)
      /\ collection (seeded D) coll <> [])
  /\ (forall coll,
      coll ∉ ["category"; "vendor"; "product"; "review"] ->
      collection (seeded D) coll = collection D coll).
Proof.
  split; [apply seed_data_initialized|]. split; [|apply collection_seeded_other].
  intros coll docs Hin.
  destruct (collection_seeded D coll docs Hin) as [n Hcoll].
  destruct (seed_documents_plain coll docs Hin) as [Hne Hplain].
  unfold seed_count. rewrite Hcoll.
  destruct (collection D coll) as [|d l] eqn:Hc.
  - split; [|split; [done|]].
    + intros _. split; [done|]. apply stamped_strip.
      eapply Forall_impl; [exact Hplain|]. by intros c [? _].
    + intros Hnil%stamped_nil. done.
  - split; [done|]. split; [by intros _|done].
Qed.

(** X16.  Seeding twice is seeding once: on the store a first [seed_data]
    leaves, a second one creates nothing, reports four zeros and leaves the
    store unchanged. *)
Theorem seed_data_idempotent (D : Database) :
  seed_data (Some (seeded D))
  = (Return {[ "seeded" :=
                 VDict (doc_of [ ("categories", VInt 0); ("vendors", VInt 0);
                                 ("products", VInt 0); ("reviews", VInt 0) ]) ]},
     Some (seeded D)).
Proof.
  assert (forall coll docs, (coll, docs) ∈ seed_collections ->
            seed_count (seeded D) coll docs = 0
            /\ seeded_block (seeded D) coll docs = seeded D) as Hdone.
  { intros coll docs Hin.
    destruct (collection_seeded D coll docs Hin) as [n Hcoll].
    destruct (seed_documents_plain coll docs Hin) as [Hne _].
    unfold seed_count, seeded_block.
    destruct (collection (seeded D) coll) as [|d l] eqn:Hs; [|done].
    destruct (collection D coll); [|done].
    symmetry in Hcoll. by apply stamped_nil in Hcoll. }
  assert (forall coll docs, (coll, docs) ∈ seed_collections ->
            seed_block (seeded D) coll docs = (Return 0, seeded D)) as Hblock.
  { intros coll docs Hin. rewrite seed_block_spec.
    by destruct (Hdone coll docs Hin) as [-> ->]. }
  unfold seed_data.
  rewrite (Hblock "category" seed_categories) by (apply list_elem_of_In; simpl; tauto).
  rewrite (Hblock "vendor" seed_vendors) by (apply list_elem_of_In; simpl; tauto).
  rewrite (Hblock "product" seed_products) by (apply list_elem_of_In; simpl; tauto).
  rewrite (Hblock "review" seed_reviews) by (apply list_elem_of_In; simpl; tauto).
  reflexivity.
Qed.

Lemma normalized_stamped_strip (n : N) (docs : list document) :
  Forall (fun c => c !! "_id" = None /\ c !! "id" = None) docs ->
  map (delete "id") (map normalize_id (stamped n docs)) = docs.
Proof.
  intros Hall. revert n. induction Hall as [|c rest [Hc1 Hc2] _ IH]; intros n; [done|].
  simpl. rewrite IH. f_equal.
  unfold normalize_id. rewrite lookup_insert_eq, !delete_insert_eq.
  rewrite (delete_id c "_id") by done. by apply delete_id.
Qed.

Lemma filter_all (docs : list document) :
  List.filter (filter_matches []) docs = docs.
Proof. induction docs as [|d l IH]; [done|]. simpl. by rewrite IH. Qed.

(** X17.  The categories served without a store are the seeded ones: after
    [seed_data] on a store without categories, the category listing with a
    limit of at least 5 returns, identifiers aside, exactly the five
    categories the listing answers with when [db] is [None]. *)
Theorem seeded_categories_are_fallback (D : Database) (limit : Z)
    (r : outcome document) (db' : option Database) :
  collection D "category" = [] -> 5 <= limit ->
  seed_data (Some D) = (r, db') ->
  map (delete "id") (list_categories db' limit) = list_categories None limit.
Proof.
  intros Hempty Hlimit. rewrite seed_data_initialized. intros [= _ <-].
  unfold list_categories, get_documents. simpl. rewrite filter_all.
  destruct (collection_seeded D "category" seed_categories) as [n Hcoll];
    [apply list_elem_of_In; simpl; tauto|].
  rewrite Hcoll, Hempty.
  rewrite take_ge.
  - rewrite normalized_stamped_strip.
    + unfold seed_categories, fallback_categories, category_doc.
      repeat (f_equal; [by_vm|]). done.
    + apply (seed_documents_plain "category"). apply list_elem_of_In; simpl; tauto.
  - assert (forall docs m, length (stamped m docs) = length docs) as Hlen.
    { induction docs as [|c l IH]; intros m; [done|]. simpl. by rewrite IH. }
    rewrite Hlen. simpl. lia.
Qed.

End Seeding.

(** ** The seed documents *)

Section SeedDocuments.
Context `{Validators}.

Lemma model_validate_no_errors (m : model) (d : document) :
  Forall (fun f => field_errors d f = []) m ->
  exists doc, model_validate m d = inr doc.
Proof.
  intros Hall. exists (validate_fields m d).2. apply model_validate_inr.
  pose proof (validate_fields_errors m d) as Herr.
  rewrite flat_map_nil in Herr by (by apply Forall_forall).
  by destruct (validate_fields m d) as [errs doc]; simpl in *; subst.
Qed.

Lemma seed_products_validate (d : document) (url : string) :
  d ∈ seed_products -> d !! "images" = Some (VList [VStr url]) ->
  is_Some (parse_http_url url) -> exists doc, model_validate Product d = inr doc.
Proof.
  unfold seed_products. rewrite !elem_of_cons.
  intros [->|[->|[->|?%not_elem_of_nil]]]; [..|done];
    intros Himg [u Hu]; apply model_validate_no_errors; unfold Product;
    repeat constructor;
    first [ unfold field_errors, validate_field; cbn [f_name f_annotation f_default];
            rewrite Himg; simpl; by rewrite Hu
          | by_vm ].
Qed.

(** X18.  The documents [seed_data] stores without validating them are
    valid documents of their models: every seeded category, vendor and
    review validates, and so does every seeded product whose image URL the
    URL parser accepts.  No seeded reference dangles: every seeded product
    names the slug of a seeded vendor and the name of a seeded category,
    and every seeded review names the slug of a seeded product. *)
Theorem seed_documents_conform :
  (forall d url, d ∈ seed_products -> d !! "images" = Some (VList [VStr url]) ->
                 is_Some (parse_http_url url)) ->
  Forall (fun d => exists doc, model_validate Category d = inr doc) seed_categories
  /\ Forall (fun d => exists doc, model_validate Vendor d = inr doc) seed_vendors
  /\ Forall (fun d => exists doc, model_validate Product d = inr doc) seed_products
  /\ Forall (fun d => exists doc, model_validate Review d = inr doc) seed_reviews
  /\ forallb (refers "vendor_slug" "slug" seed_vendors) seed_products = true
  /\ forallb (refers "saree_type" "name" seed_categories) seed_products = true
  /\ forallb (refers "product_slug" "slug" seed_products) seed_reviews = true.
Proof.
  intros Hurls.
  split; [|split; [|split; [|split; [|split; [|split]]]]]; try by_vm.
  - repeat constructor; apply model_validate_no_errors; repeat constructor; by_vm.
  - repeat constructor; apply model_validate_no_errors; repeat constructor; by_vm.
  - apply Forall_forall. intros d Hd.
    assert (exists url, d !! "images" = Some (VList [VStr url])) as [url Himg].
    { revert Hd. unfold seed_products. rewrite !elem_of_cons.
      intros [->|[->|[->|?%not_elem_of_nil]]]; [..|done];
        lazymatch goal with
        | |- exists url, ?d !! "images" = _ =>
            let v := eval vm_compute in (d !! "images") in
            lazymatch v with
            | Some (VList [VStr ?u]) => exists u; by_vm
            end
        end. }
    by eapply seed_products_validate; [..|eapply Hurls].
  - repeat constructor; apply model_validate_no_errors; repeat constructor; by_vm.
Qed.

End SeedDocuments.

(** ** The diagnostics *)

(** The lookup of key [k] in the goal is the value [v], by evaluation. *)
Ltac lookup_as k v :=
  match goal with
  | |- context [?r !! k] => replace (r !! k) with v by (symmetry; by_vm)
  end.

(** X19.  [test_database] never reports its initial "not available" state
    nor an error: the [database] field tells whether the store is
    initialized, [connection_status] is "Connected" exactly when it is, a
    variable counts as set exactly when it is a non-empty string, and
    [collections] lists the store's collections when the store is
    initialized and the call succeeds; it is empty otherwise, a failure of
    the call being swallowed. *)
Theorem test_database_report (env : environ) (db : option Database)
    (list_collection_names : Database -> outcome (list string)) :
  let response := test_database env db list_collection_names in
  response !! "backend" = Some (VStr "✅ Running")
  /\ response !! "database"
     = Some (VStr (match db with
                   | Some _ => "✅ Connected & Working"
                   | None => "⚠️ Available but not initialized"
                   end))
  /\ (response !! "connection_status" = Some (VStr "Connected") <-> db <> None)
  /\ (response !! "database_url" = Some (VStr "✅ Set")
      <-> exists s, DATABASE_URL env = Some s /\ s <> "")
  /\ (response !! "database_name" = Some (VStr "✅ Set")
      <-> exists s, DATABASE_NAME env = Some s /\ s <> "")
  /\ (exists names,
        response !! "collections" = Some (VList (VStr <$> names))
        /\ (forall D, db = Some D -> list_collection_names D = Return names \/
                                     (names = [] /\ exists e, list_collection_names D = Raise e))
        /\ (db = None -> names = [])).
Proof.
  intros response. subst response. unfold test_database.
  set (url := if truthy (DATABASE_URL env) then "✅ Set" else "❌ Not Set").
  set (name := if truthy (DATABASE_NAME env) then "✅ Set" else "❌ Not Set").
  assert ((url = "✅ Set" <-> exists s, DATABASE_URL env = Some s /\ s <> "")
          /\ (name = "✅ Set" <-> exists s, DATABASE_NAME env = Some s /\ s <> ""))
    as [Hurl Hname].
  { subst url name. split.
    - rewrite <- truthy_true. by destruct (truthy (DATABASE_URL env)).
    - rewrite <- truthy_true. by destruct (truthy (DATABASE_NAME env)). }
  assert (forall a b : string, Some (VStr a) = Some (VStr b) <-> a = b) as Hinj.
  { intros a b. split; [by intros [= ->]|by intros ->]. }
  clearbody url name.
  destruct db as [D|]; [destruct (list_collection_names D) as [names|e] eqn:Hl|].
  - lookup_as "backend" (Some (VStr "✅ Running")).
    lookup_as "database" (Some (VStr "✅ Connected & Working")).
    lookup_as "connection_status" (Some (VStr "Connected")).
    lookup_as "database_url" (Some (VStr url)).
    lookup_as "database_name" (Some (VStr name)).
    lookup_as "collections" (Some (VList (VStr <$> names))).
    rewrite !Hinj. split; [done|]. split; [done|]. split; [by split|].
    split; [exact Hurl|]. split; [exact Hname|].
    exists names. split; [done|]. split; [|done]. intros ? [= <-]. by left.
  - lookup_as "backend" (Some (VStr "✅ Running")).
    lookup_as "database" (Some (VStr "✅ Connected & Working")).
    lookup_as "connection_status" (Some (VStr "Connected")).
    lookup_as "database_url" (Some (VStr url)).
    lookup_as "database_name" (Some (VStr name)).
    lookup_as "collections" (Some (VList (VStr <$> @nil string))).
    rewrite !Hinj. split; [done|]. split; [done|]. split; [by split|].
    split; [exact Hurl|]. split; [exact Hname|].
    exists []. split; [done|]. split; [|done]. intros ? [= <-]. right. eauto.
  - lookup_as "backend" (Some (VStr "✅ Running")).
    lookup_as "database" (Some (VStr "⚠️ Available but not initialized")).
    lookup_as "connection_status" (Some (VStr "Not Connected")).
    lookup_as "database_url" (Some (VStr url)).
    lookup_as "database_name" (Some (VStr name)).
    lookup_as "collections" (Some (VList (VStr <$> @nil string))).
    rewrite !Hinj. split; [done|]. split; [done|]. split; [by split|].
    split; [exact Hurl|]. split; [exact Hname|].
    exists []. by split.
Qed.

(** ** The further properties on concrete requests *)

Lemma scheme_url_idempotent : @url_parser_idempotent sample_validators.
Proof.
  intros s u. simpl. unfold scheme_url.
  destruct (is_prefix "http://" s || is_prefix "https://" s) eqn:Hs; [|done].
  intros [= <-]. by rewrite Hs.
Qed.

(** [validated_document_keys] on the sample review with a key that is no
    field: the validated review has a [rating] and no [verified]. *)
Lemma validated_document_keys_sample :
  (is_Some (review_asha !! "rating") <-> "rating" ∈ field_names Review)
  /\ (is_Some (review_asha !! "verified") <-> "verified" ∈ field_names Review).
Proof.
  split.
  - apply (@validated_document_keys sample_validators Review
             (<["verified" := VBool true]> review_asha) review_asha "rating").
    by_vm.
  - apply (@validated_document_keys sample_validators Review
             (<["verified" := VBool true]> review_asha) review_asha "verified").
    by_vm.
Defined.

(** [validated_document_well_typed] on the sample review and its rating. *)
Lemma validated_document_well_typed_sample :
  exists v, review_asha !! "rating" = Some v
            /\ @has_type sample_validators (TInt (Some 1) (Some 5)) v.
Proof.
  apply (@validated_document_well_typed sample_validators Review review_asha review_asha
           (Field "rating" (TInt (Some 1) (Some 5)) Required)).
  - apply list_elem_of_In; simpl; tauto.
  - by_vm.
  - apply list_elem_of_In; simpl; tauto.
Defined.

(** [revalidation_is_identity] on the sample product without its stock. *)
Lemma revalidation_is_identity_sample :
  @model_validate sample_validators Product (<["stock" := VInt 10]> royal_banarasi)
  = inr (<["stock" := VInt 10]> royal_banarasi).
Proof.
  apply (@revalidation_is_identity sample_validators Product
           (delete "stock" royal_banarasi)).
  - apply scheme_url_idempotent.
  - apply list_elem_of_In; simpl; tauto.
  - by_vm.
Defined.

(** [validation_errors_are_located] on the sample review without its
    product slug. *)
Lemma validation_errors_are_located_sample :
  [ErrorDetail [LField "product_slug"] missing] <> []
  /\ forall e, e ∈ [ErrorDetail [LField "product_slug"] missing] ->
               exists f rest, f ∈ Review /\ loc e = LField (f_name f) :: rest.
Proof.
  apply (@validation_errors_are_located sample_validators Review
           (delete "product_slug" review_asha)).
  by_vm.
Defined.

(** [embedded_reviews_are_review_listing] on the sample store. *)
Lemma embedded_reviews_are_review_listing_sample :
  (<["reviews" := VList [VDict (<["id" := VStr "3"]> review_asha)]]>
     (<["id" := VStr "0"]> royal_banarasi)) !! "reviews"
  = Some (VList (map VDict
                   (@list_reviews sample_runtime (Some sample_db)
                      "royal-banarasi-brocade" 50))).
Proof.
  apply (@embedded_reviews_are_review_listing sample_runtime (Some sample_db)
           "royal-banarasi-brocade").
  by_vm.
Defined.

(** [post_orders_status] on the sample order, which names no status. *)
Lemma post_orders_status_sample :
  exists status,
    @post_orders sample_validators sample_runtime (Some empty_db) sample_order
    = (Return (<["status" := VStr status]> {[ "id" := VStr "0" ]}),
       Some (store_with empty_db "order" (<["status" := VStr "pending"]> sample_order)))
    /\ status = "pending".
Proof.
  destruct (@post_orders_status sample_validators sample_runtime empty_db sample_order
              (<["status" := VStr "pending"]> sample_order))
    as (status & Hpost & _ & Hdefault & _).
  - by_vm.
  - exists status. split; [exact Hpost|]. apply Hdefault. by_vm.
Defined.

(** [seeded_categories_are_fallback] on the empty store. *)
Lemma seeded_categories_are_fallback_sample :
  map (delete "id") (@list_categories sample_runtime (Some (seeded empty_db)) 20)
  = @list_categories sample_runtime None 20.
Proof.
  eapply (@seeded_categories_are_fallback sample_runtime empty_db 20).
  - reflexivity.
  - lia.
  - apply seed_data_initialized.
Defined.

(** [seed_documents_conform] with the sample parsers, which accept the
    three image URLs. *)
Lemma seed_documents_conform_sample :
  Forall (fun d => exists doc, @model_validate sample_validators Product d = inr doc)
    seed_products
  /\ forallb (refers "product_slug" "slug" seed_products) seed_reviews = true.
Proof.
  destruct (@seed_documents_conform sample_validators) as (_ & _ & Hp & _ & _ & _ & Hr).
  - intros d url. unfold seed_products. rewrite !elem_of_cons.
    intros [->|[->|[->|?%not_elem_of_nil]]]; [..|done]; intros Himg;
      lazymatch type of Himg with
      | ?d !! "images" = _ =>
          let v := eval vm_compute in (d !! "images") in
          assert (d !! "images" = v) as Hv by by_vm;
          rewrite Hv in Himg; injection Himg as <-
      end;
      lazymatch goal with
      | |- is_Some ?e =>
          let v := eval vm_compute in e in
          lazymatch v with
          | Some ?u => exists u; by_vm
          end
      end.
  - by split.
Defined.

(** ** More on filters, references and bounds *)

Section More.
Context `{Validators} `{Runtime}.

(** X20.  Dropping a parameter from a product listing request never loses
    a match: a document that satisfies the filter of a request satisfies
    the filter of the same request without [q], or without any one of the
    exact-match parameters. *)
Theorem dropping_a_parameter_keeps_matches
    (q saree_type color material occasion : option string) (d : document) :
  filter_matches (products_filter q saree_type color material occasion) d = true ->
  filter_matches (products_filter None saree_type color material occasion) d = true
  /\ filter_matches (products_filter q None color material occasion) d = true
  /\ filter_matches (products_filter q saree_type None material occasion) d = true
  /\ filter_matches (products_filter q saree_type color None occasion) d = true
  /\ filter_matches (products_filter q saree_type color material None) d = true
  /\ filter_matches (products_filter None None None None None) d = true.
Proof.
  rewrite !products_filter_matches. intros (Hq & Hs & Hc & Hm & Ho).
  repeat split; done.
Qed.

(** X21.  References are not checked on creation: a review for a slug that
    no stored product has is created all the same; afterwards the product
    lookup for that slug still raises the 404 exception, while the review
    listing for the slug returns the stored reviews of the slug followed by
    the new review, cut at the limit. *)
Theorem create_review_without_product (D : Database) (body : document)
    (slug : string) (limit : Z) :
  body !! "product_slug" = Some (VStr slug) ->
  matching "slug" slug (collection D "product") = [] ->
  let rid := str (VObjectId (next_oid D)) in
  let D' := store_with D "review" body in
  create_review (Some D) body = (Return {[ "id" := VStr rid ]}, Some D')
  /\ get_product (Some D') slug = Raise (HTTPException 404 "Product not found")
  /\ list_reviews (Some D') slug limit
     = take (Z.to_nat limit)
         (map normalize_id (matching "product_slug" slug (collection D "review"))
          ++ [<["id" := VStr rid]> (delete "_id" body)]).
Proof.
  intros Hslug Hnone rid D'. subst rid D'. split; [reflexivity|]. split.
  - unfold get_product. rewrite get_documents_by_field, collection_store_with.
    rewrite decide_False by done. fold (matching "slug" slug (collection D "product")).
    by rewrite Hnone.
  - unfold list_reviews. rewrite get_documents_by_field, collection_store_with.
    rewrite decide_True by done. rewrite List.filter_app. simpl.
    assert (field_is "product_slug" slug (<["_id" := VObjectId (next_oid D)]> body) = true)
      as ->.
    { apply field_is_true. by rewrite lookup_insert_ne. }
    rewrite <- (normalize_id_stored body).
    change [normalize_id (<["_id" := VObjectId (next_oid D)]> body)]
      with (map normalize_id [<["_id" := VObjectId (next_oid D)]> body]).
    rewrite <- map_app. unfold matching. by rewrite <- fmap_take.
Qed.


End More.

(** [dropping_a_parameter_keeps_matches] on the cotton product and a
    request for cotton sarees in saffron. *)
Lemma dropping_a_parameter_keeps_matches_sample :
  @filter_matches sample_runtime
    (products_filter None None (Some "Saffron") None None) summer_breeze = true
  /\ @filter_matches sample_runtime
       (products_filter None (Some "Cotton") None None None) summer_breeze = true.
Proof.
  destruct (@dropping_a_parameter_keeps_matches sample_runtime
              None (Some "Cotton") (Some "Saffron") None None summer_breeze)
    as (_ & Ha & Hb & _).
  - by_vm.
  - by split.
Defined.

(** [create_review_without_product] on the empty store. *)
Lemma create_review_without_product_sample :
  @get_product sample_runtime (Some (store_with empty_db "review" review_asha))
    "royal-banarasi-brocade"
  = Raise (HTTPException 404 "Product not found")
  /\ @list_reviews sample_runtime (Some (store_with empty_db "review" review_asha))
       "royal-banarasi-brocade" 20
     = [<["id" := VStr "0"]> review_asha].
Proof.
  destruct (@create_review_without_product sample_runtime empty_db review_asha
              "royal-banarasi-brocade" 20) as (_ & Hget & Hlist).
  - by_vm.
  - reflexivity.
  - split; [exact Hget|]. rewrite Hlist. by_vm.
Defined.

